(** * OpenAI text-to-speech provider: a shallow embedding and its properties

    The development follows [src/index.ts] and its later revision
    [src/unnamed/part_004].  The two files share the configuration, the
    provider class and the health check; they differ in the options handed
    to [fetch] by [synthesize], in the line logged by [init] on success and
    in [shutdown].  Shared code is embedded once; the members that
    differ take the revision as their first argument. *)

From Stdlib Require Import ZArith NArith List String Ascii Bool Lia.
From Stdlib Require Import Strings.Byte.
From Stdlib Require Import DecimalString.
From Stdlib Require Import SpecFloat.
From Stdlib Require Import QArith Qpower Qround Lqa.
Import ListNotations.

Open Scope string_scope.
Open Scope Z_scope.

(* ================================================================== *)
(** ** ECMAScript values used by the plugin *)
(* ================================================================== *)

(** A JavaScript number is an IEEE-754 binary64 value. *)
Definition number : Type := spec_float.

Definition prec : Z := 53.
Definition emax : Z := 1024.

(** The Number value of an integer (exact below 2^53). *)
Definition Number_of_Z (z : Z) : number := binary_normalize prec emax z 0 false.
Definition Number_of_N (n : N) : number := Number_of_Z (Z.of_N n).

Definition num_div : number -> number -> number := SFdiv prec emax.
Definition num_mul : number -> number -> number := SFmul prec emax.
Definition num_lt : number -> number -> bool := SFltb.

(** The Number value of the decimal literal [n/d], for [n] and [d] below
    2^53: the correctly rounded quotient. *)
Definition decimal_literal (n d : Z) : number :=
  num_div (Number_of_Z n) (Number_of_Z d).

(** [Math.round]: the closest integral Number, ties towards +infinity;
    NaN, the infinities and the zeros are returned unchanged.  The rounding
    is computed on the exact value [m * 2^e] of the argument. *)
Definition Math_round (x : number) : number :=
  match x with
  | S754_finite s m e =>
      if 0 <=? e then x
      else
        let d := 2 ^ (- e) in
        let v := if s then Z.neg m else Z.pos m in
        binary_normalize prec emax ((2 * v + d) / (2 * d)) 0 s
  | _ => x
  end.

(** ToBoolean on strings and numbers. *)
Definition truthy_string (s : string) : bool := negb (s =? "")%string.

Definition truthy_number (x : number) : bool :=
  match x with
  | S754_zero _ | S754_nan => false
  | _ => true
  end.

(** [a || d] where [a] may be [undefined] and [d] is always defined. *)
Definition or_default {A : Type} (truthy : A -> bool) (a : option A) (d : A) : A :=
  match a with
  | Some x => if truthy x then x else d
  | None => d
  end.

(** [a || b] where both sides may be [undefined]. *)
Definition or_else {A : Type} (truthy : A -> bool) (a b : option A) : option A :=
  match a with
  | Some x => if truthy x then a else b
  | None => b
  end.

(** ToBoolean of a possibly undefined value. *)
Definition truthy_opt {A : Type} (truthy : A -> bool) (a : option A) : bool :=
  match a with
  | Some x => truthy x
  | None => false
  end.

(** [o?.f]: optional chaining on a possibly undefined object. *)
Definition chain {O A : Type} (o : option O) (f : O -> option A) : option A :=
  match o with
  | Some x => f x
  | None => None
  end.

(** [a ?? d]. *)
Definition nullish {A : Type} (a : option A) (d : A) : A :=
  match a with
  | Some x => x
  | None => d
  end.

(** [Array.prototype.join] and [Array.prototype.includes] on strings. *)
Fixpoint join (sep : string) (l : list string) : string :=
  match l with
  | [] => ""
  | [x] => x
  | x :: rest => x ++ sep ++ join sep rest
  end.

Fixpoint includes (l : list string) (x : string) : bool :=
  match l with
  | [] => false
  | y :: rest => (y =? x)%string || includes rest x
  end.

(** [sub] occurs in [s]. *)
Definition contains (s sub : string) : Prop :=
  exists pre post : string, s = pre ++ sub ++ post.

(** [String.prototype.includes]. *)
Fixpoint str_includes (s sub : string) : bool :=
  prefix sub s
  || match s with
     | EmptyString => false
     | String _ rest => str_includes rest sub
     end.

(** Decimal digits of a non-negative integer, which is how an integral
    Number such as an HTTP status prints in a template literal. *)
Definition N_toString (n : N) : string := NilEmpty.string_of_uint (N.to_uint n).

(** Thrown values: [Error] objects. *)
Record JsError : Type := mkError { err_name : string; err_message : string }.

Definition Error (msg : string) : JsError := mkError "Error" msg.

(** [Error.prototype.toString], used by [`${err}`]. *)
Definition Error_toString (e : JsError) : string :=
  if (err_name e =? "")%string then err_message e
  else if (err_message e =? "")%string then err_name e
  else err_name e ++ ": " ++ err_message e.

(** A call either completes normally or throws. *)
Inductive completion (A : Type) : Type :=
| Normal (a : A)
| Thrown (e : JsError).
Arguments Normal {A} a.
Arguments Thrown {A} e.

(** Plain objects passed to [JSON.stringify]: properties in insertion
    order. *)
Inductive jsval : Type :=
| JString (s : string)
| JNumber (x : number).

Definition object : Type := list (string * jsval).

Fixpoint get_prop (o : object) (k : string) : option jsval :=
  match o with
  | [] => None
  | (k', v) :: rest => if (k' =? k)%string then Some v else get_prop rest k
  end.

Definition has_prop (o : object) (k : string) : bool :=
  match get_prop o k with
  | Some _ => true
  | None => false
  end.

(** [o[k] = v]: overwrite in place, or append a new property. *)
Fixpoint set_prop (o : object) (k : string) (v : jsval) : object :=
  match o with
  | [] => [(k, v)]
  | (k', v') :: rest =>
      if (k' =? k)%string then (k, v) :: rest else (k', v') :: set_prop rest k v
  end.

(** The two library conversions whose output the plugin only passes on:
    Number-to-string conversion in template literals and [JSON.stringify]. *)
Class Runtime : Type := {
  Number_toString : number -> string;
  JSON_stringify : object -> string
}.

(* ================================================================== *)
(** ** Asynchronous calls: [fetch] and the response readers *)
(* ================================================================== *)

(** The second argument of [fetch].  [signal] holds the delay in
    milliseconds of [AbortSignal.timeout], when one is passed. *)
Record RequestInit : Type := {
  method : string;
  headers : list (string * string);
  body : option string;
  signal : option N
}.

(** What the plugin reads of a [Response]. *)
Record Response : Type := {
  ok : bool;
  status : N;
  text : string;
  arrayBuffer : list byte
}.

(** A settled promise. *)
Inductive settled (A : Type) : Type :=
| Fulfilled (a : A)
| Rejected (e : JsError).
Arguments Fulfilled {A} a.
Arguments Rejected {A} e.

(** An [async] function body: it returns, throws, or awaits one of the
    three asynchronous operations the plugin uses and goes on with the
    answer. *)
Inductive io (A : Type) : Type :=
| Ret (a : A)
| Throw (e : JsError)
| Fetch (url : string) (init : RequestInit) (k : settled Response -> io A)
| ReadText (r : Response) (k : settled string -> io A)
| ReadArrayBuffer (r : Response) (k : settled (list byte) -> io A).
Arguments Ret {A} a.
Arguments Throw {A} e.
Arguments Fetch {A} url init k.
Arguments ReadText {A} r k.
Arguments ReadArrayBuffer {A} r k.

Fixpoint bind {A B : Type} (m : io A) (f : A -> io B) : io B :=
  match m with
  | Ret a => f a
  | Throw e => Throw e
  | Fetch url init k => Fetch url init (fun s => bind (k s) f)
  | ReadText r k => ReadText r (fun s => bind (k s) f)
  | ReadArrayBuffer r k => ReadArrayBuffer r (fun b => bind (k b) f)
  end.

(** [try { m } catch { h }]. *)
Fixpoint try_catch {A : Type} (m : io A) (h : JsError -> io A) : io A :=
  match m with
  | Ret a => Ret a
  | Throw e => h e
  | Fetch url init k => Fetch url init (fun s => try_catch (k s) h)
  | ReadText r k => ReadText r (fun s => try_catch (k s) h)
  | ReadArrayBuffer r k => ReadArrayBuffer r (fun b => try_catch (k b) h)
  end.

Declare Scope io_scope.
Delimit Scope io_scope with io.
Notation "x <- m ;; k" := (bind m (fun x => k))
  (at level 61, m at next level, right associativity) : io_scope.

(** [await fetch(url, init)]: a rejected promise is thrown at the [await]. *)
Definition await_fetch (url : string) (init : RequestInit) : io Response :=
  Fetch url init (fun s =>
    match s with
    | Fulfilled r => Ret r
    | Rejected e => Throw e
    end).

(** [await p]: the value of a fulfilled promise, the error of a rejected one
    thrown. *)
Definition await {A : Type} (s : settled A) : io A :=
  match s with
  | Fulfilled a => Ret a
  | Rejected e => Throw e
  end.

(** [await response.text()] and [await response.arrayBuffer()]. *)
Definition await_text (r : Response) : io string := ReadText r await.
Definition await_arrayBuffer (r : Response) : io (list byte) := ReadArrayBuffer r await.

(** What an execution did, in order. *)
Inductive event : Type :=
| EvFetch (url : string) (init : RequestInit)
| EvText
| EvArrayBuffer.

(** The network: how each [fetch] settles. *)
Definition network : Type := string -> RequestInit -> settled Response.

(** How the body of a response is read: [None] when [text()] and
    [arrayBuffer()] deliver it, [Some e] when they reject with [e] (the
    connection drops, or the signal of the request aborts the download). *)
Definition body_faults : Type := Response -> option JsError.

Definition read_body {A : Type} (faults : body_faults) (r : Response) (data : A)
    : settled A :=
  match faults r with
  | Some e => Rejected e
  | None => Fulfilled data
  end.

(** Run an [async] body against a network and the faults of its bodies,
    giving its completion and the operations it performed. *)
Fixpoint run_reads {A : Type} (net : network) (faults : body_faults) (m : io A)
    : completion A * list event :=
  match m with
  | Ret a => (Normal a, [])
  | Throw e => (Thrown e, [])
  | Fetch url init k =>
      let '(c, tr) := run_reads net faults (k (net url init)) in
      (c, EvFetch url init :: tr)
  | ReadText r k =>
      let '(c, tr) := run_reads net faults (k (read_body faults r (text r))) in
      (c, EvText :: tr)
  | ReadArrayBuffer r k =>
      let '(c, tr) := run_reads net faults (k (read_body faults r (arrayBuffer r))) in
      (c, EvArrayBuffer :: tr)
  end.

(** No body read fails. *)
Definition no_faults : body_faults := fun _ => None.

(** The runs in which every response delivers its body. *)
Definition run {A : Type} (net : network) (m : io A) : completion A * list event :=
  run_reads net no_faults m.

Definition is_fetch (ev : event) : bool :=
  match ev with
  | EvFetch _ _ => true
  | _ => false
  end.

(** The [fetch] calls of a trace. *)
Definition fetches (tr : list event) : list event := filter is_fetch tr.

(** The completion and the trace of a run in which every response
    delivers its body. *)
Definition outcome {A : Type} (net : network) (m : io A) : completion A := fst (run net m).
Definition trace {A : Type} (net : network) (m : io A) : list event := snd (run net m).

(* ================================================================== *)
(** ** Configuration *)
(* ================================================================== *)

Inductive AudioFormat : Type :=
| pcm_s16le | pcm_f32le | opus | ogg_opus | mp3 | wav | webm_opus | mulaw | alaw.

Inductive Gender : Type := male | female | neutral.

Record Voice : Type := {
  id : string;
  name : string;
  language : option string;
  gender : option Gender;
  description : option string
}.

Record TTSOptions : Type := {
  opt_voice : option string;
  opt_speed : option number;
  opt_pitch : option number;
  opt_format : option AudioFormat;
  opt_sampleRate : option number;
  opt_instructions : option string
}.

Record TTSSynthesisResult : Type := {
  audio : list byte;
  format : AudioFormat;
  sampleRate : number;
  durationMs : number
}.

Record OpenAITTSConfig : Type := {
  cfg_apiKey : option string;
  cfg_model : option string;
  cfg_voice : option string;
  cfg_speed : option number;
  cfg_instructions : option string
}.

(** [DEFAULT_CONFIG]; its [apiKey] and [instructions] are [undefined]. *)
Definition DEFAULT_model : string := "gpt-4o-mini-tts".
Definition DEFAULT_voice : string := "coral".
Definition DEFAULT_speed : number := Number_of_Z 1.

Definition mkVoice (i n : string) (g : Gender) (d : string) : Voice :=
  {| id := i; name := n; language := None; gender := Some g; description := Some d |}.

Definition OPENAI_VOICES : list Voice := [
  mkVoice "alloy" "Alloy" neutral "Neutral, balanced";
  mkVoice "ash" "Ash" male "Clear, professional";
  mkVoice "ballad" "Ballad" female "Warm, melodic";
  mkVoice "coral" "Coral" female "Natural, friendly";
  mkVoice "echo" "Echo" male "Deep, authoritative";
  mkVoice "fable" "Fable" neutral "Storytelling";
  mkVoice "nova" "Nova" female "Energetic, youthful";
  mkVoice "onyx" "Onyx" male "Deep, resonant";
  mkVoice "sage" "Sage" neutral "Calm, wise";
  mkVoice "shimmer" "Shimmer" female "Bright, cheerful";
  mkVoice "verse" "Verse" neutral "Expressive, dynamic";
  mkVoice "marin" "Marin" female "Best quality female";
  mkVoice "cedar" "Cedar" male "Best quality male"
].

(* ================================================================== *)
(** ** The provider class *)
(* ================================================================== *)

(** The two revisions of the plugin under [src/]. *)
Inductive revision : Type :=
| index_ts    (* src/index.ts *)
| part_004.   (* src/unnamed/part_004 *)

(** The private fields of [OpenAITTSProvider]. *)
Record OpenAITTSProvider : Type := {
  apiKey : string;
  model : string;
  defaultVoice : string;
  speed : number;
  instructions : option string
}.

(** [constructor(config)]; [env] is [process.env.OPENAI_API_KEY]. *)
Definition constructor (env : option string) (config : OpenAITTSConfig) : OpenAITTSProvider :=
  {| apiKey := or_default truthy_string
                 (or_else truthy_string (cfg_apiKey config) env) "";
     model := or_default truthy_string (cfg_model config) DEFAULT_model;
     defaultVoice := or_default truthy_string (cfg_voice config) DEFAULT_voice;
     speed := or_default truthy_number (cfg_speed config) DEFAULT_speed;
     instructions := cfg_instructions config |}.

Definition SPEED_MIN : number := decimal_literal 25 100.
Definition SPEED_MAX : number := Number_of_Z 4.

Definition validVoices : list string := map id OPENAI_VOICES.
Definition validModels : list string := ["gpt-4o-mini-tts"; "tts-1"; "tts-1-hd"].

(** The speed test of [validateConfig]:
    [this.speed < 0.25 || this.speed > 4.0]. *)
Definition speed_out_of_range (v : number) : bool :=
  num_lt v SPEED_MIN || num_lt SPEED_MAX v.

(** The PCM parameters fixed in [synthesize]. *)
Definition sampleRate_const : number := Number_of_Z 24000.
Definition bytesPerSample : number := Number_of_Z 2.

(** [Buffer.from(arrayBuffer)] and [buffer.length]. *)
Definition Buffer_from (ab : list byte) : list byte := ab.
Definition Buffer_length (b : list byte) : number := Number_of_N (N.of_nat (List.length b)).

(** [Math.round((samples / sampleRate) * 1000)] with
    [samples = length / bytesPerSample], as written in [synthesize]. *)
Definition duration_of_length (len : number) : number :=
  let samples := num_div len bytesPerSample in
  Math_round (num_mul (num_div samples sampleRate_const) (Number_of_Z 1000)).

Definition SPEECH_URL : string := "https://api.openai.com/v1/audio/speech".
Definition MODELS_URL : string := "https://api.openai.com/v1/models".

(** [options?.instructions || this.instructions], the instructions
    [synthesize] resolves for a call. *)
Definition effectiveInstructions (this : OpenAITTSProvider)
    (options : option TTSOptions) : option string :=
  or_else truthy_string (chain options opt_instructions) (instructions this).

(** The request body built by [synthesize] before the call (the object
    literal and the conditional [instructions] assignment). *)
Definition synthesize_body (this : OpenAITTSProvider) (text : string)
    (options : option TTSOptions) : object :=
  let voice := or_default truthy_string (chain options opt_voice) (defaultVoice this) in
  let speed := or_default truthy_number (chain options opt_speed) (speed this) in
  let body :=
    [ ("model", JString (model this));
      ("input", JString text);
      ("voice", JString voice);
      ("response_format", JString "pcm");
      ("speed", JNumber speed) ] in
  match effectiveInstructions this options with
  | Some i =>
      if truthy_string i && (model this =? "gpt-4o-mini-tts")%string
      then set_prop body "instructions" (JString i)
      else body
  | None => body
  end.

Section Provider.
Context {RT : Runtime}.

Definition validateConfig (this : OpenAITTSProvider) : completion unit :=
  if negb (truthy_string (apiKey this)) then
    Thrown (Error "OPENAI_API_KEY required for OpenAI TTS")
  else if negb (includes validVoices (defaultVoice this)) then
    Thrown (Error ("Invalid voice: " ++ defaultVoice this
                   ++ ". Valid: " ++ join ", " validVoices))
  else if num_lt (speed this) SPEED_MIN || num_lt SPEED_MAX (speed this) then
    Thrown (Error ("Speed must be between 0.25 and 4.0, got: "
                   ++ Number_toString (speed this)))
  else if negb (includes validModels (model this)) then
    Thrown (Error ("Invalid model: " ++ model this
                   ++ ". Valid: " ++ join ", " validModels))
  else Normal tt.

(** The [signal] option of the [fetch] call of [synthesize]: absent in
    [src/index.ts], [AbortSignal.timeout(30000)] in [part_004]. *)
Definition synthesize_signal (rev : revision) : option N :=
  match rev with
  | index_ts => None
  | part_004 => Some 30000%N
  end.

(** The options object handed to [fetch] by [synthesize]. *)
Definition synthesize_init (rev : revision) (this : OpenAITTSProvider)
    (text : string) (options : option TTSOptions) : RequestInit :=
  {| method := "POST";
     headers := [ ("Authorization", "Bearer " ++ apiKey this);
                  ("Content-Type", "application/json") ];
     body := Some (JSON_stringify (synthesize_body this text options));
     signal := synthesize_signal rev |}.

Definition synthesize (rev : revision) (this : OpenAITTSProvider)
    (text : string) (options : option TTSOptions) : io TTSSynthesisResult :=
  (response <- await_fetch SPEECH_URL (synthesize_init rev this text options) ;;
   if negb (ok response) then
     error <- await_text response ;;
     Throw (Error ("OpenAI TTS failed: " ++ N_toString (status response)
                   ++ " - " ++ error))
   else
     arrayBuffer <- await_arrayBuffer response ;;
     let audio := Buffer_from arrayBuffer in
     Ret {| audio := audio;
            format := pcm_s16le;
            sampleRate := sampleRate_const;
            durationMs := duration_of_length (Buffer_length audio) |})%io.

(** [healthCheck]: identical in both revisions. *)
Definition healthCheck_init (this : OpenAITTSProvider) : RequestInit :=
  {| method := "GET";
     headers := [ ("Authorization", "Bearer " ++ apiKey this) ];
     body := None;
     signal := Some 5000%N |}.

Definition healthCheck (this : OpenAITTSProvider) : io bool :=
  try_catch
    (response <- await_fetch MODELS_URL (healthCheck_init this) ;;
     Ret (ok response))%io
    (fun _ => Ret false).

(* ================================================================== *)
(** ** The plugin object *)
(* ================================================================== *)

Inductive level : Type := log_info | log_error | log_warn | log_debug.

(** The host context as [init] and [shutdown] use it: the configuration it
    serves and a record of the calls made on it. *)
Record Host : Type := {
  getConfig : OpenAITTSConfig;
  registered : list OpenAITTSProvider;
  logged : list (level * string);
  unregistered : list string
}.

Definition registerTTSProvider (ctx : Host) (p : OpenAITTSProvider) : Host :=
  {| getConfig := getConfig ctx;
     registered := registered ctx ++ [p];
     logged := logged ctx;
     unregistered := unregistered ctx |}.

Definition log (l : level) (ctx : Host) (msg : string) : Host :=
  {| getConfig := getConfig ctx;
     registered := registered ctx;
     logged := logged ctx ++ [(l, msg)];
     unregistered := unregistered ctx |}.

Definition unregisterExtension (ctx : Host) (n : string) : Host :=
  {| getConfig := getConfig ctx;
     registered := registered ctx;
     logged := logged ctx;
     unregistered := unregistered ctx ++ [n] |}.

(** The module-level variables: [provider], and whether [ctx] is set
    (only [part_004] has and sets that variable). *)
Record PluginState : Type := {
  provider : option OpenAITTSProvider;
  ctx_set : bool
}.

(** The line logged after a successful registration: [src/index.ts] reads
    the configuration with [??], [part_004] reads the provider. *)
Definition registered_line (rev : revision) (config : OpenAITTSConfig)
    (p : OpenAITTSProvider) : string :=
  match rev with
  | index_ts =>
      "OpenAI TTS provider registered (model: "
      ++ nullish (cfg_model config) DEFAULT_model
      ++ ", voice: " ++ nullish (cfg_voice config) DEFAULT_voice ++ ")"
  | part_004 =>
      "OpenAI TTS provider registered (model: " ++ model p
      ++ ", voice: " ++ defaultVoice p ++ ")"
  end.

Definition binds_ctx (rev : revision) : bool :=
  match rev with
  | index_ts => false
  | part_004 => true
  end.

Definition init (rev : revision) (env : option string) (ctx : Host)
    : Host * PluginState :=
  let config := getConfig ctx in
  let p := constructor env config in
  let st := {| provider := Some p; ctx_set := binds_ctx rev |} in
  match validateConfig p with
  | Normal _ =>
      let ctx1 := registerTTSProvider ctx p in
      (log log_info ctx1 (registered_line rev config p), st)
  | Thrown err =>
      (log log_error ctx ("Failed to register OpenAI TTS: " ++ Error_toString err), st)
  end.

Definition shutdown (rev : revision) (ctx : Host) (st : PluginState)
    : Host * PluginState :=
  match rev with
  | index_ts => (ctx, {| provider := None; ctx_set := ctx_set st |})
  | part_004 =>
      let ctx' :=
        match ctx_set st, provider st with
        | true, Some _ => unregisterExtension ctx "tts"
        | _, _ => ctx
        end in
      (ctx', {| provider := None; ctx_set := false |})
  end.

End Provider.

(* ================================================================== *)
(** ** A runtime for concrete runs *)
(* ================================================================== *)

(** The theorems below hold for every [Runtime].  Concrete runs use the
    instance of this module.  Its [Number_toString] prints the exact
    decimal expansion of a double; ECMAScript prints the shortest decimal
    that reads back as the same double, which is the same text for the
    values used in the examples (integers below 2^53 and short binary
    fractions such as 0.25 or 4.5, between 1e-6 and 1e21). *)
Module Sample.

Definition strip_zeros_step (c : ascii) (acc : string) : string :=
  match acc with
  | EmptyString => if Ascii.eqb c "0" then EmptyString else String c EmptyString
  | _ => String c acc
  end.

(** Remove the trailing zeros of a digit string. *)
Fixpoint strip_zeros (s : string) : string :=
  match s with
  | EmptyString => EmptyString
  | String c rest => strip_zeros_step c (strip_zeros rest)
  end.

Fixpoint zeros (n : nat) : string :=
  match n with
  | O => EmptyString
  | S k => String "0" (zeros k)
  end.

(** The digits of [fp / 2^k] after the decimal point, for [fp < 2^k]. *)
Definition fraction_digits (fp : Z) (k : Z) : string :=
  let digits := N_toString (Z.to_N (fp * 5 ^ k)) in
  strip_zeros (zeros (Z.to_nat k - String.length digits) ++ digits).

Definition magnitude_toString (m : positive) (e : Z) : string :=
  if 0 <=? e then N_toString (Z.to_N (Z.pos m * 2 ^ e))
  else
    let d := 2 ^ (- e) in
    let ip := N_toString (Z.to_N (Z.pos m / d)) in
    let fp := Z.pos m mod d in
    if fp =? 0 then ip else ip ++ "." ++ fraction_digits fp (- e).

Definition number_toString (x : number) : string :=
  match x with
  | S754_nan => "NaN"
  | S754_zero _ => "0"
  | S754_infinity s => if s then "-Infinity" else "Infinity"
  | S754_finite s m e =>
      if s then "-" ++ magnitude_toString m e else magnitude_toString m e
  end.

Definition quote : string := String (ascii_of_nat 34) EmptyString.

Definition hex_digit (n : nat) : ascii :=
  match n with
  | 10%nat => "a" | 11%nat => "b" | 12%nat => "c"
  | 13%nat => "d" | 14%nat => "e" | 15%nat => "f"
  | _ => ascii_of_nat (48 + n)
  end.

(** One character of a JSON string literal. *)
Definition escape_char (c : ascii) : string :=
  let n := nat_of_ascii c in
  if Nat.eqb n 34 then "\" ++ quote
  else if Nat.eqb n 92 then "\\"
  else if Nat.eqb n 8 then "\b"
  else if Nat.eqb n 12 then "\f"
  else if Nat.eqb n 10 then "\n"
  else if Nat.eqb n 13 then "\r"
  else if Nat.eqb n 9 then "\t"
  else if Nat.ltb n 32 then
    "\u00" ++ String (hex_digit (Nat.div n 16)) (String (hex_digit (Nat.modulo n 16)) EmptyString)
  else String c EmptyString.

Fixpoint escape (s : string) : string :=
  match s with
  | EmptyString => EmptyString
  | String c rest => escape_char c ++ escape rest
  end.

Definition json_string (s : string) : string := quote ++ escape s ++ quote.

(** Non-finite numbers serialise as [null]. *)
Definition json_value (v : jsval) : string :=
  match v with
  | JString s => json_string s
  | JNumber (S754_finite _ _ _ as x) | JNumber (S754_zero _ as x) => number_toString x
  | JNumber _ => "null"
  end.

Definition json_object (o : object) : string :=
  "{" ++ join "," (map (fun kv => json_string (fst kv) ++ ":" ++ json_value (snd kv)) o) ++ "}".

#[export] Instance runtime : Runtime :=
  {| Number_toString := number_toString; JSON_stringify := json_object |}.

End Sample.

(* ================================================================== *)
(** ** The specification's formulas *)
(* ================================================================== *)

(** The duration formula in the specification's words:
    [round((byteLength / 2 / sampleRate) * 1000)] with [sampleRate] fixed at
    24000, read as an ECMAScript expression. *)
Definition spec_durationMs (byteLength : N) : number :=
  Math_round
    (num_mul (num_div (num_div (Number_of_N byteLength) (Number_of_Z 2))
                      (Number_of_Z 24000))
             (Number_of_Z 1000)).

(** The same formula read as arithmetic: the exact rational
    [(byteLength / 2 / 24000) * 1000], rounded to the nearest integer with
    ties upwards. *)
Definition spec_duration_exact (byteLength : N) : Q :=
  (inject_Z (Z.of_N byteLength) / 2 / 24000 * 1000)%Q.

Definition spec_durationMs_exact (byteLength : N) : Z :=
  Qfloor (spec_duration_exact byteLength + (1 # 2)).

(** [round(n / 48)], the closed form, read as an ECMAScript expression and
    as exact arithmetic (ties upwards). *)
Definition round_n_over_48 (n : N) : number :=
  Math_round (num_div (Number_of_N n) (Number_of_Z 48)).

Definition exact_round_n_over_48 (n : N) : Z := (Z.of_N n + 24) / 48.

(** The exact value [m * 2^e] of a positive finite number, and of any
    finite number; the relative error bound 2^-52 of one rounding. *)
Definition Qval (m : positive) (e : Z) : Q := (inject_Z (Z.pos m) * 2 ^ e)%Q.

Definition Qvalue (x : number) : Q :=
  match x with
  | S754_finite s m e => if s then (- Qval m e)%Q else Qval m e
  | _ => 0%Q
  end.

Definition ulp_rel : Q := 1 # 4503599627370496.

(** A number lies outside the closed interval from 0.25 to 4.0, on exact
    values; the infinities do, NaN is not compared. *)
Definition outside_speed_interval (x : number) : Prop :=
  match x with
  | S754_nan => False
  | S754_infinity _ => True
  | _ => (Qvalue x < 1 # 4)%Q \/ (4 < Qvalue x)%Q
  end.

Definition inside_speed_interval (x : number) : Prop :=
  match x with
  | S754_zero _ | S754_finite _ _ _ => ((1 # 4) <= Qvalue x)%Q /\ (Qvalue x <= 4)%Q
  | _ => False
  end.

(** A well-formed double: [valid_binary] of SpecFloat at binary64. *)
Definition valid_number (x : number) : bool := valid_binary prec emax x.

(* ================================================================== *)
(** ** Concrete runs *)
(* ================================================================== *)

Definition no_options : option TTSOptions := None.

Definition mkOptions (v : option string) (s : option number) (i : option string)
    : TTSOptions :=
  {| opt_voice := v; opt_speed := s; opt_pitch := None; opt_format := None;
     opt_sampleRate := None; opt_instructions := i |}.

(** The configuration of the test suite: only the key is set. *)
Definition test_config : OpenAITTSConfig :=
  {| cfg_apiKey := Some "sk-test-key"; cfg_model := None; cfg_voice := None;
     cfg_speed := None; cfg_instructions := None |}.

Definition empty_config : OpenAITTSConfig :=
  {| cfg_apiKey := None; cfg_model := None; cfg_voice := None;
     cfg_speed := None; cfg_instructions := None |}.

Definition test_provider : OpenAITTSProvider := constructor None test_config.

Definition zero_bytes (n : N) : list byte := repeat x00 (N.to_nat n).

Definition ok_response (payload : list byte) : Response :=
  {| ok := true; status := 200%N; text := ""; arrayBuffer := payload |}.

Definition unauthorized : Response :=
  {| ok := false; status := 401%N; text := "Unauthorized"; arrayBuffer := [] |}.

Definition always (r : Response) : network := fun _ _ => Fulfilled r.

(** Further concrete inputs. *)
Definition tts1_provider : OpenAITTSProvider :=
  constructor None
    {| cfg_apiKey := Some "sk-test-key"; cfg_model := Some "tts-1"; cfg_voice := None;
       cfg_speed := None; cfg_instructions := Some "Speak cheerfully" |}.

Definition styled_provider : OpenAITTSProvider :=
  constructor None
    {| cfg_apiKey := Some "sk-test-key"; cfg_model := None; cfg_voice := None;
       cfg_speed := None; cfg_instructions := Some "Speak cheerfully" |}.

Definition falsy_options : option TTSOptions :=
  Some (mkOptions (Some "") (Some (Number_of_Z 0)) (Some "")).

Definition nova_fast : option TTSOptions :=
  Some (mkOptions (Some "nova") (Some (Number_of_Z 2)) None).

Definition timeout_error : JsError :=
  mkError "TimeoutError" "The operation was aborted due to timeout".

Definition unreachable : network := fun _ _ => Rejected timeout_error.

Definition host_of (config : OpenAITTSConfig) : Host :=
  {| getConfig := config; registered := []; logged := []; unregistered := [] |}.

Definition config_with_speed (key : option string) (v : number) : OpenAITTSConfig :=
  {| cfg_apiKey := key; cfg_model := None; cfg_voice := None;
     cfg_speed := Some v; cfg_instructions := None |}.

(* ================================================================== *)
(** ** The streaming variant *)
(* ================================================================== *)

(** An [async function*] body: it returns, throws, yields a value and goes
    on when asked for the next one, or awaits an asynchronous call. *)
Inductive agen (A Y : Type) : Type :=
| GReturn
| GThrow (e : JsError)
| GYield (y : Y) (k : agen A Y)
| GAwait (m : io A) (k : A -> agen A Y).
Arguments GReturn {A Y}.
Arguments GThrow {A Y} e.
Arguments GYield {A Y} y k.
Arguments GAwait {A Y} m k.

(** A consumer that asks for values until the generator is done
    ([for await]): the values yielded in order, how the generator ended, and
    the operations performed.  A call that throws at an [await] ends the
    generator with that error. *)
Fixpoint drain {A Y : Type} (net : network) (g : agen A Y)
    : list Y * completion unit * list event :=
  match g with
  | GReturn => ([], Normal tt, [])
  | GThrow e => ([], Thrown e, [])
  | GYield y k => let '(ys, c, tr) := drain net k in (y :: ys, c, tr)
  | GAwait m k =>
      match run net m with
      | (Normal a, tr) =>
          let '(ys, c, tr') := drain net (k a) in (ys, c, (tr ++ tr')%list)
      | (Thrown e, tr) => ([], Thrown e, tr)
      end
  end.

(** [streamSynthesize]: the same text in both revisions. *)
Definition streamSynthesize {RT : Runtime} (rev : revision) (this : OpenAITTSProvider)
    (text : string) (options : option TTSOptions)
    : agen TTSSynthesisResult (list byte) :=
  GAwait (synthesize rev this text options)
         (fun result => GYield (audio result) GReturn).

(* ================================================================== *)
(** ** The configuration schema of the manifest ([part_004]) *)
(* ================================================================== *)

Record ConfigOption : Type := { opt_value : string; opt_label : string }.

(** A field of [manifest.configSchema.fields], with the properties the
    manifest sets. *)
Record ConfigField : Type := {
  f_name : string;
  f_type : string;
  f_label : string;
  f_description : string;
  f_secret : option bool;
  f_setupFlow : option string;
  f_required : option bool;
  f_default : option jsval;
  f_options : list ConfigOption
}.

Definition mkOpt (v l : string) : ConfigOption := {| opt_value := v; opt_label := l |}.

Definition configSchema_fields : list ConfigField := [
  {| f_name := "apiKey"; f_type := "password"; f_label := "OpenAI API Key";
     f_description := "OpenAI API key";
     f_secret := Some true; f_setupFlow := Some "paste"; f_required := Some true;
     f_default := None; f_options := [] |};
  {| f_name := "model"; f_type := "select"; f_label := "TTS Model";
     f_description := "TTS model: gpt-4o-mini-tts, tts-1, tts-1-hd";
     f_secret := None; f_setupFlow := None; f_required := None;
     f_default := Some (JString "gpt-4o-mini-tts");
     f_options := [ mkOpt "gpt-4o-mini-tts" "GPT-4o Mini TTS (recommended)";
                    mkOpt "tts-1" "TTS-1 (fast)";
                    mkOpt "tts-1-hd" "TTS-1 HD (high quality)" ] |};
  {| f_name := "voice"; f_type := "select"; f_label := "Default Voice";
     f_description :=
       "Default voice (alloy, ash, ballad, coral, echo, fable, nova, onyx, sage, shimmer, verse, marin, cedar)";
     f_secret := None; f_setupFlow := None; f_required := None;
     f_default := Some (JString "coral");
     f_options := [ mkOpt "alloy" "Alloy (neutral)";
                    mkOpt "ash" "Ash (male)";
                    mkOpt "ballad" "Ballad (female)";
                    mkOpt "coral" "Coral (female)";
                    mkOpt "echo" "Echo (male)";
                    mkOpt "fable" "Fable (neutral)";
                    mkOpt "nova" "Nova (female)";
                    mkOpt "onyx" "Onyx (male)";
                    mkOpt "sage" "Sage (neutral)";
                    mkOpt "shimmer" "Shimmer (female)";
                    mkOpt "verse" "Verse (neutral)";
                    mkOpt "marin" "Marin (female, best quality)";
                    mkOpt "cedar" "Cedar (male, best quality)" ] |};
  {| f_name := "speed"; f_type := "number"; f_label := "Speed";
     f_description := "Speed multiplier (0.25 - 4.0)";
     f_secret := None; f_setupFlow := None; f_required := None;
     f_default := Some (JNumber (Number_of_Z 1)); f_options := [] |};
  {| f_name := "instructions"; f_type := "textarea"; f_label := "Style Instructions";
     f_description := "Style instructions (gpt-4o-mini-tts only)";
     f_secret := None; f_setupFlow := None; f_required := Some false;
     f_default := None; f_options := [] |}
].

(** [fields.find(f => f.name === n)]. *)
Definition find_field (n : string) : option ConfigField :=
  find (fun f => (f_name f =? n)%string) configSchema_fields.

(** The values a select field offers, and the default of a field. *)
Definition offered (n : string) : list string :=
  match find_field n with
  | Some f => map opt_value (f_options f)
  | None => []
  end.

Definition schema_default (n : string) : option jsval :=
  match find_field n with
  | Some f => f_default f
  | None => None
  end.

(** A configuration as the host's form produces it from the schema: a
    pasted key, one offered model, one offered voice, a speed and free
    instructions. *)
Definition form_config (key model voice : string) (speed : option number)
    (instr : option string) : OpenAITTSConfig :=
  {| cfg_apiKey := Some key; cfg_model := Some model; cfg_voice := Some voice;
     cfg_speed := speed; cfg_instructions := instr |}.

(** A configuration that sets only the key. *)
Definition key_only (key : string) : OpenAITTSConfig :=
  {| cfg_apiKey := Some key; cfg_model := None; cfg_voice := None;
     cfg_speed := None; cfg_instructions := None |}.

(* ================================================================== *)
(** * Properties *)
(* ================================================================== *)

Example sample_body_text :
  body (synthesize_init (RT := Sample.runtime) part_004 test_provider "Hello world" no_options)
  = Some ("{" ++ Sample.quote ++ "model" ++ Sample.quote ++ ":"
              ++ Sample.quote ++ "gpt-4o-mini-tts" ++ Sample.quote ++ ","
              ++ Sample.quote ++ "input" ++ Sample.quote ++ ":"
              ++ Sample.quote ++ "Hello world" ++ Sample.quote ++ ","
              ++ Sample.quote ++ "voice" ++ Sample.quote ++ ":"
              ++ Sample.quote ++ "coral" ++ Sample.quote ++ ","
              ++ Sample.quote ++ "response_format" ++ Sample.quote ++ ":"
              ++ Sample.quote ++ "pcm" ++ Sample.quote ++ ","
              ++ Sample.quote ++ "speed" ++ Sample.quote ++ ":1}").
Proof. vm_compute. reflexivity. Qed.

Example sample_numbers :
  map Sample.number_toString
      [Number_of_Z 5; decimal_literal 25 100; decimal_literal 45 10;
       Number_of_Z 0; Number_of_Z 24000; decimal_literal 1 8]
  = ["5"; "0.25"; "4.5"; "0"; "24000"; "0.125"].
Proof. vm_compute. reflexivity. Qed.

Example Math_round_ties :
  map Math_round
      [decimal_literal 5 10; decimal_literal 25 10; decimal_literal (-25) 10;
       decimal_literal (-4) 10; decimal_literal 14 10; Number_of_Z 7;
       S754_finite false 9007199254740991 (-54)]
  = [Number_of_Z 1; Number_of_Z 3; Number_of_Z (-2);
     S754_zero true; Number_of_Z 1; Number_of_Z 7;
     S754_zero false].
Proof. vm_compute. reflexivity. Qed.

(** ** Strings *)

Lemma append_assoc (a b c : string) : (a ++ b) ++ c = a ++ b ++ c.
Proof. induction a as [|x a IH]; cbn; [reflexivity | now rewrite IH]. Qed.

Lemma append_nil_r (a : string) : a ++ "" = a.
Proof. induction a as [|x a IH]; cbn; [reflexivity | now rewrite IH]. Qed.

Lemma prefix_app (sub post : string) : prefix sub (sub ++ post) = true.
Proof.
  induction sub as [|c sub IH]; simpl.
  - destruct post; reflexivity.
  - destruct (ascii_dec c c) as [_|n]; [exact IH | congruence].
Qed.

Lemma prefix_split (sub s : string) :
  prefix sub s = true -> exists post, s = sub ++ post.
Proof.
  revert s; induction sub as [|c sub IH]; intros s H.
  - exists s; reflexivity.
  - destruct s as [|d s]; simpl in H; [discriminate|].
    destruct (ascii_dec c d) as [->|]; [|discriminate].
    destruct (IH _ H) as [post ->]. exists post; reflexivity.
Qed.

Lemma str_includes_contains (s sub : string) :
  str_includes s sub = true <-> contains s sub.
Proof.
  split.
  - induction s as [|c s IH]; cbn [str_includes]; intros H.
    + rewrite orb_false_r in H. destruct (prefix_split _ _ H) as [post E].
      exists "", post; exact E.
    + apply orb_true_iff in H as [H|H].
      * destruct (prefix_split _ _ H) as [post E]. exists "", post; exact E.
      * destruct (IH H) as (pre & post & E).
        exists (String c pre), post. simpl. now rewrite E.
  - intros (pre & post & ->). induction pre as [|c pre IH].
    + change ("" ++ sub ++ post) with (sub ++ post).
      assert (P : prefix sub (sub ++ post) = true) by apply prefix_app.
      destruct (sub ++ post); cbn [str_includes]; rewrite P; reflexivity.
    + change (String c pre ++ sub ++ post) with (String c (pre ++ sub ++ post)).
      cbn [str_includes]. rewrite IH. apply orb_true_r.
Qed.

Lemma contains_app_r (a b sub : string) : contains b sub -> contains (a ++ b) sub.
Proof.
  intros (pre & post & ->). exists (a ++ pre), post. now rewrite append_assoc.
Qed.

Lemma contains_prefix (sub post : string) : contains (sub ++ post) sub.
Proof. exists "", post; reflexivity. Qed.

Lemma contains_suffix (a sub : string) : contains (a ++ sub) sub.
Proof.
  apply contains_app_r. exists "", "". cbn. now rewrite append_nil_r.
Qed.

(** ** Binary64 arithmetic *)

Lemma digits2_bounds (p : positive) :
  2 ^ (Z.pos (digits2_pos p) - 1) <= Z.pos p < 2 ^ Z.pos (digits2_pos p).
Proof.
  induction p as [p IH|p IH|]; cbn [digits2_pos].
  - rewrite Pos2Z.inj_succ, Z.pow_succ_r by lia.
    replace (Z.succ (Z.pos (digits2_pos p)) - 1) with (Z.succ (Z.pos (digits2_pos p) - 1)) by lia.
    rewrite Z.pow_succ_r by lia. lia.
  - rewrite Pos2Z.inj_succ, Z.pow_succ_r by lia.
    replace (Z.succ (Z.pos (digits2_pos p)) - 1) with (Z.succ (Z.pos (digits2_pos p) - 1)) by lia.
    rewrite Z.pow_succ_r by lia. lia.
  - cbn. lia.
Qed.

Lemma Zdigits2_unique (z d : Z) :
  0 < d -> 2 ^ (d - 1) <= z < 2 ^ d -> Zdigits2 z = d.
Proof.
  intros Hd [Hl Hu].
  assert (0 < z) by (pose proof (Z.pow_pos_nonneg 2 (d - 1)); lia).
  destruct z as [|p|p]; try lia. cbn [Zdigits2].
  pose proof (digits2_bounds p) as [Bl Bu].
  set (k := Z.pos (digits2_pos p)) in *.
  assert (0 < k) by (subst k; lia).
  destruct (Z.lt_trichotomy k d) as [Hlt|[Heq|Hgt]]; [|exact Heq|].
  - assert (2 ^ k <= 2 ^ (d - 1)) by (apply Z.pow_le_mono_r; lia). lia.
  - assert (2 ^ d <= 2 ^ (k - 1)) by (apply Z.pow_le_mono_r; lia). lia.
Qed.

Lemma shr_1_m (mrs : shr_record) :
  0 <= shr_m mrs -> shr_m (shr_1 mrs) = shr_m mrs / 2.
Proof.
  destruct mrs as [m r s]. cbn [shr_m]. intros Hm.
  destruct m as [|[p|p|]|p]; cbn [shr_1 shr_m]; try lia; try reflexivity.
  - apply Z.div_unique with (r := 1); lia.
  - apply Z.div_unique with (r := 0); lia.
Qed.

Lemma pow2_xO (p : positive) : 2 ^ Z.pos p~0 = 2 ^ Z.pos p * 2 ^ Z.pos p.
Proof. rewrite <- Z.pow_add_r by lia. f_equal. lia. Qed.

Lemma pow2_xI (p : positive) : 2 ^ Z.pos p~1 = 2 * (2 ^ Z.pos p * 2 ^ Z.pos p).
Proof.
  rewrite <- Z.pow_add_r, <- Z.pow_succ_r by lia. f_equal. lia.
Qed.

Lemma iter_shr_1_m (p : positive) :
  forall mrs, 0 <= shr_m mrs ->
    shr_m (SpecFloat.iter_pos shr_1 p mrs) = shr_m mrs / 2 ^ Z.pos p.
Proof.
  induction p as [p IH|p IH|]; intros mrs Hm; cbn [SpecFloat.iter_pos].
  - assert (H1 : 0 <= shr_m (shr_1 mrs)) by (rewrite shr_1_m by lia; apply Z.div_pos; lia).
    assert (H2 : 0 <= shr_m (SpecFloat.iter_pos shr_1 p (shr_1 mrs))).
    { rewrite IH by lia. apply Z.div_pos; [lia | apply Z.pow_pos_nonneg; lia]. }
    rewrite IH, IH, shr_1_m by lia.
    rewrite !Z.div_div by (try apply Z.pow_pos_nonneg; lia).
    f_equal. rewrite pow2_xI. lia.
  - assert (H2 : 0 <= shr_m (SpecFloat.iter_pos shr_1 p mrs)).
    { rewrite IH by lia. apply Z.div_pos; [lia | apply Z.pow_pos_nonneg; lia]. }
    rewrite IH, IH by lia.
    rewrite !Z.div_div by (try apply Z.pow_pos_nonneg; lia).
    f_equal. rewrite pow2_xO. lia.
  - rewrite shr_1_m by lia. reflexivity.
Qed.

Lemma shr_record_of_loc_m (m : Z) (l : location) : shr_m (shr_record_of_loc m l) = m.
Proof. destruct l as [|[| |]]; reflexivity. Qed.

Lemma fexp_normal (x : Z) : -1021 <= x -> fexp prec emax x = x - 53.
Proof. intros H. unfold fexp, emin, prec, emax. lia. Qed.

Lemma shr_fexp_spec (m e : Z) (l : location) :
  0 < m -> 53 <= Zdigits2 m -> -1000 <= e ->
  exists mrs,
    shr_fexp prec emax m e l = (mrs, e + (Zdigits2 m - 53))
    /\ shr_m mrs = m / 2 ^ (Zdigits2 m - 53).
Proof.
  intros Hm Hd He. unfold shr_fexp.
  rewrite fexp_normal by lia.
  replace (Zdigits2 m + e - 53 - e) with (Zdigits2 m - 53) by lia.
  destruct (Zdigits2 m - 53) as [|p|p] eqn:Hk; try lia; cbn [shr].
  - eexists. split; [f_equal; lia|]. rewrite shr_record_of_loc_m.
    cbn. now rewrite Z.div_1_r.
  - eexists. split; [reflexivity|].
    rewrite iter_shr_1_m by (rewrite shr_record_of_loc_m; lia).
    now rewrite shr_record_of_loc_m.
Qed.

Lemma round_nearest_even_cases (m : Z) (l : location) :
  round_nearest_even m l = m \/ round_nearest_even m l = m + 1.
Proof.
  destruct l as [|[| |]]; cbn [round_nearest_even]; auto.
  destruct (Z.even m); auto.
Qed.

Lemma pow2_split (a b : Z) : 0 <= a -> 0 <= b -> 2 ^ (a + b) = 2 ^ a * 2 ^ b.
Proof. intros. apply Z.pow_add_r; assumption. Qed.

Lemma top_bits_bounds (m : Z) :
  0 < m -> 53 <= Zdigits2 m ->
  2 ^ 52 <= m / 2 ^ (Zdigits2 m - 53) < 2 ^ 53.
Proof.
  intros Hm Hd. destruct m as [|p|p]; try lia. cbn [Zdigits2] in *.
  pose proof (digits2_bounds p) as [Bl Bu].
  set (d := Z.pos (digits2_pos p)) in *.
  assert (Hp : 0 < 2 ^ (d - 53)) by (apply Z.pow_pos_nonneg; lia).
  split.
  - apply Z.div_le_lower_bound; [exact Hp|].
    rewrite Z.mul_comm, <- pow2_split by lia.
    replace (52 + (d - 53)) with (d - 1) by lia. exact Bl.
  - apply Z.div_lt_upper_bound; [exact Hp|].
    rewrite <- pow2_split by lia.
    replace (d - 53 + 53) with d by lia. exact Bu.
Qed.

(** The rounding of SpecFloat, for a positive integer of at least 53 bits
    in the normal range: the result keeps the top 53 bits, possibly
    incremented by one. *)
Lemma binary_round_aux_spec (s : bool) (mz ez : Z) (l : location) :
  0 < mz -> 53 <= Zdigits2 mz -> -1000 <= ez -> Zdigits2 mz + ez <= 1000 ->
  exists (M2 : positive) (E2 : Z),
    binary_round_aux prec emax s mz ez l = S754_finite s M2 E2
    /\ 2 ^ 52 <= Z.pos M2 < 2 ^ 53
    /\ ((E2 = ez + (Zdigits2 mz - 53)
         /\ (Z.pos M2 = mz / 2 ^ (Zdigits2 mz - 53)
             \/ Z.pos M2 = mz / 2 ^ (Zdigits2 mz - 53) + 1))
        \/ (E2 = ez + (Zdigits2 mz - 53) + 1
            /\ Z.pos M2 = 2 ^ 52
            /\ mz / 2 ^ (Zdigits2 mz - 53) + 1 = 2 ^ 53)).
Proof.
  intros Hm Hd He Hr. unfold binary_round_aux.
  destruct (shr_fexp_spec mz ez l Hm Hd He) as (mrs & -> & Hmrs).
  pose proof (top_bits_bounds mz Hm Hd) as HM.
  set (k := Zdigits2 mz - 53) in *.
  set (M := mz / 2 ^ k) in *.
  rewrite Hmrs.
  set (M1 := round_nearest_even M (loc_of_shr_record mrs)).
  assert (HM1 : M1 = M \/ M1 = M + 1) by apply round_nearest_even_cases.
  assert (Hcase : M1 < 2 ^ 53 \/ M1 = 2 ^ 53) by lia.
  destruct Hcase as [Hlt | Heq].
  - assert (Hd1 : Zdigits2 M1 = 53) by (apply Zdigits2_unique; cbn; lia).
    destruct (shr_fexp_spec M1 (ez + k) loc_Exact) as (mrs2 & -> & Hmrs2); try lia.
    rewrite Hd1 in *. cbn in Hmrs2. rewrite Z.div_1_r in Hmrs2.
    rewrite Hmrs2.
    destruct M1 as [|p|p] eqn:EM1; try lia.
    replace (ez + k + (53 - 53) <=? emax - prec) with true
      by (symmetry; apply Z.leb_le; unfold emax, prec; lia).
    exists p, (ez + k + (53 - 53)). split; [reflexivity|].
    split; [lia|]. left. split; [lia|]. lia.
  - assert (Hd1 : Zdigits2 M1 = 54) by (apply Zdigits2_unique; cbn; lia).
    destruct (shr_fexp_spec M1 (ez + k) loc_Exact) as (mrs2 & -> & Hmrs2); try lia.
    rewrite Hd1 in *. rewrite Heq in Hmrs2. cbn in Hmrs2.
    rewrite Hmrs2.
    replace (ez + k + (54 - 53) <=? emax - prec) with true
      by (symmetry; apply Z.leb_le; unfold emax, prec; lia).
    eexists _, (ez + k + (54 - 53)). split; [reflexivity|].
    split; [cbn; lia|]. right. split; [lia|]. split; [reflexivity|]. lia.
Qed.

(** ** Exact values *)

Lemma Qpow2_pos (e : Z) : (0 < 2 ^ e)%Q.
Proof. apply Qpower_0_lt. reflexivity. Qed.

Lemma Qpow2_add (a b : Z) : (2 ^ (a + b) == 2 ^ a * 2 ^ b)%Q.
Proof. apply Qpower_plus. discriminate. Qed.

Lemma Qpow2_Z (k : Z) : 0 <= k -> (2 ^ k == inject_Z (2 ^ k))%Q.
Proof. intros H. rewrite Zpower_Qpower by exact H. reflexivity. Qed.

Lemma binary_round_aux_error (s : bool) (mz ez : Z) (l : location) (y : Q) :
  0 < mz -> 53 <= Zdigits2 mz -> -1000 <= ez -> Zdigits2 mz + ez <= 1000 ->
  (inject_Z mz * 2 ^ ez <= y)%Q -> (y <= inject_Z (mz + 1) * 2 ^ ez)%Q ->
  exists (M2 : positive) (E2 : Z),
    binary_round_aux prec emax s mz ez l = S754_finite s M2 E2
    /\ 2 ^ 52 <= Z.pos M2 < 2 ^ 53
    /\ ez + (Zdigits2 mz - 53) <= E2 <= ez + (Zdigits2 mz - 53) + 1
    /\ ((1 - ulp_rel) * y <= Qval M2 E2)%Q
    /\ (Qval M2 E2 <= (1 + ulp_rel) * y)%Q.
Proof.
  intros Hm Hd He Hr Hy1 Hy2.
  destruct (binary_round_aux_spec s mz ez l Hm Hd He Hr) as (M2 & E2 & Heq & HM2 & Hc).
  exists M2, E2. split; [exact Heq|]. split; [exact HM2|].
  pose proof (top_bits_bounds mz Hm Hd) as HM.
  set (k := Zdigits2 mz - 53) in *.
  assert (Hk : 0 <= k) by (subst k; lia).
  set (M := mz / 2 ^ k) in *.
  assert (Hp : 0 < 2 ^ k) by (apply Z.pow_pos_nonneg; lia).
  assert (Hlo : M * 2 ^ k <= mz).
  { subst M. rewrite Z.mul_comm. apply Z.mul_div_le. exact Hp. }
  assert (Hhi : mz + 1 <= (M + 1) * 2 ^ k).
  { subst M. pose proof (Z.mul_succ_div_gt mz (2 ^ k) Hp). lia. }
  set (w := (2 ^ (ez + k))%Q).
  assert (Hw : (w == 2 ^ ez * inject_Z (2 ^ k))%Q).
  { subst w. rewrite Qpow2_add, (Qpow2_Z k Hk). reflexivity. }
  assert (Hw0 : (0 < w)%Q) by apply Qpow2_pos.
  pose proof (Qpow2_pos ez) as He0.
  set (L := (inject_Z M * w)%Q).
  assert (HL1 : (L <= y)%Q).
  { apply Qle_trans with (inject_Z mz * 2 ^ ez)%Q; [|exact Hy1].
    subst L. rewrite Hw.
    setoid_replace (inject_Z M * (2 ^ ez * inject_Z (2 ^ k)))%Q
      with (inject_Z (M * 2 ^ k) * 2 ^ ez)%Q by (rewrite inject_Z_mult; ring).
    apply Qmult_le_compat_r; [|apply Qlt_le_weak; exact He0].
    rewrite <- Zle_Qle. exact Hlo. }
  assert (HL2 : (y <= L + w)%Q).
  { apply Qle_trans with (inject_Z (mz + 1) * 2 ^ ez)%Q; [exact Hy2|].
    subst L. rewrite Hw.
    setoid_replace (inject_Z M * (2 ^ ez * inject_Z (2 ^ k)) + 2 ^ ez * inject_Z (2 ^ k))%Q
      with (inject_Z ((M + 1) * 2 ^ k) * 2 ^ ez)%Q
      by (rewrite inject_Z_mult, inject_Z_plus; ring).
    apply Qmult_le_compat_r; [|apply Qlt_le_weak; exact He0].
    rewrite <- Zle_Qle. exact Hhi. }
  assert (HL3 : (inject_Z (2 ^ 52) * w <= L)%Q).
  { subst L. apply Qmult_le_compat_r; [|apply Qlt_le_weak; exact Hw0].
    rewrite <- Zle_Qle. lia. }
  assert (Hr2 : (Qval M2 E2 == L \/ Qval M2 E2 == L + w)%Q).
  { unfold Qval. destruct Hc as [[-> [HMe|HMe]] | (-> & HMe & HM53)].
    - left. rewrite HMe. reflexivity.
    - right. rewrite HMe, inject_Z_plus. subst L w. ring.
    - right. rewrite HMe. subst L.
      replace (ez + k + 1) with (1 + (ez + k)) by lia.
      rewrite Qpow2_add. fold w.
      setoid_replace (inject_Z M * w + w)%Q with (inject_Z (M + 1) * w)%Q
        by (rewrite inject_Z_plus; ring).
      rewrite HM53.
      change (inject_Z (2 ^ 53)) with (inject_Z (2 ^ 52) * 2 ^ 1)%Q. ring. }
  split; [lia|].
  change (inject_Z (2 ^ 52)) with (4503599627370496 # 1)%Q in HL3.
  unfold ulp_rel.
  generalize dependent (Qval M2 E2). intros r Hr2.
  generalize dependent L. intros L HL1 HL2 HL3 Hr2.
  clearbody w. clear - Hw0 HL1 HL2 HL3 Hr2.
  destruct Hr2 as [Hr2|Hr2]; split; lra.
Qed.

Lemma Qval_pos (m : positive) (e : Z) : (0 < Qval m e)%Q.
Proof.
  unfold Qval. apply Qmult_lt_0_compat; [|apply Qpow2_pos].
  rewrite <- (Zlt_Qlt 0). lia.
Qed.

Lemma div_eucl_div (a b : Z) : Z.div_eucl a b = (a / b, a mod b).
Proof. unfold Z.div, Z.modulo. destruct (Z.div_eucl a b); reflexivity. Qed.

Lemma SFdiv_core_spec (ma mb : positive) (ea eb : Z) :
  2 ^ 52 <= Z.pos ma < 2 ^ 53 -> 2 ^ 52 <= Z.pos mb < 2 ^ 53 ->
  -500 <= ea <= 500 -> -500 <= eb <= 500 ->
  exists l : location,
    SFdiv_core_binary prec emax (Z.pos ma) ea (Z.pos mb) eb
    = (Z.pos ma * 2 ^ 53 / Z.pos mb, ea - eb - 53, l).
Proof.
  intros Ha Hb Hea Heb. unfold SFdiv_core_binary.
  rewrite (Zdigits2_unique (Z.pos ma) 53), (Zdigits2_unique (Z.pos mb) 53) by (cbn; lia).
  rewrite fexp_normal by lia.
  replace (Z.min (53 + ea - (53 + eb) - 53) (ea - eb)) with (ea - eb - 53) by lia.
  replace (ea - eb - (ea - eb - 53)) with 53 by lia.
  rewrite Z.shiftl_mul_pow2 by lia.
  rewrite div_eucl_div. eexists. reflexivity.
Qed.

Lemma quotient_bounds (ma mb : Z) :
  2 ^ 52 <= ma < 2 ^ 53 -> 2 ^ 52 <= mb < 2 ^ 53 ->
  2 ^ 52 <= ma * 2 ^ 53 / mb < 2 ^ 54.
Proof.
  intros Ha Hb. split.
  - apply Z.div_le_lower_bound; [lia|]. nia.
  - apply Z.div_lt_upper_bound; [lia|]. nia.
Qed.

Lemma Zdigits2_53_54 (q : Z) :
  2 ^ 52 <= q < 2 ^ 54 -> 53 <= Zdigits2 q <= 54.
Proof.
  intros Hq. destruct (Z_lt_le_dec q (2 ^ 53)).
  - rewrite (Zdigits2_unique q 53) by (cbn; lia). lia.
  - rewrite (Zdigits2_unique q 54) by (cbn; lia). lia.
Qed.

(** Division of two positive normal doubles: the quotient is a normal
    double within a relative error of 2^-52 of the exact quotient. *)
Lemma num_div_spec (ma mb : positive) (ea eb : Z) :
  2 ^ 52 <= Z.pos ma < 2 ^ 53 -> 2 ^ 52 <= Z.pos mb < 2 ^ 53 ->
  -400 <= ea <= 400 -> -400 <= eb <= 400 ->
  exists (M : positive) (E : Z),
    num_div (S754_finite false ma ea) (S754_finite false mb eb) = S754_finite false M E
    /\ 2 ^ 52 <= Z.pos M < 2 ^ 53
    /\ ea - eb - 53 <= E <= ea - eb - 51
    /\ ((1 - ulp_rel) * Qval ma ea <= Qval M E * Qval mb eb)%Q
    /\ (Qval M E * Qval mb eb <= (1 + ulp_rel) * Qval ma ea)%Q.
Proof.
  intros Ha Hb Hea Heb. unfold num_div, SFdiv.
  destruct (SFdiv_core_spec ma mb ea eb) as [l ->]; try lia.
  set (q := Z.pos ma * 2 ^ 53 / Z.pos mb).
  pose proof (quotient_bounds _ _ Ha Hb) as Hq. fold q in Hq.
  pose proof (Zdigits2_53_54 q Hq) as Hdq.
  set (e' := ea - eb - 53).
  pose proof (Qval_pos mb eb) as Hvb.
  set (y := (Qval ma ea / Qval mb eb)%Q).
  assert (Hyb : (y * Qval mb eb == Qval ma ea)%Q).
  { subst y. field. intro H0. rewrite H0 in Hvb. discriminate. }
  assert (Hscale : (Qval ma ea == inject_Z (Z.pos ma * 2 ^ 53) * (2 ^ e' * 2 ^ eb))%Q).
  { unfold Qval. rewrite inject_Z_mult, <- Qpow2_add, <- (Qpow2_Z 53) by lia.
    rewrite <- Qmult_assoc, <- Qpow2_add.
    subst e'. replace (53 + (ea - eb - 53 + eb)) with ea by lia. reflexivity. }
  assert (Hpp : (0 < 2 ^ e' * 2 ^ eb)%Q) by (apply Qmult_lt_0_compat; apply Qpow2_pos).
  assert (Hq1 : q * Z.pos mb <= Z.pos ma * 2 ^ 53).
  { subst q. rewrite Z.mul_comm. apply Z.mul_div_le. lia. }
  assert (Hq2 : Z.pos ma * 2 ^ 53 <= (q + 1) * Z.pos mb).
  { subst q. pose proof (Z.mul_succ_div_gt (Z.pos ma * 2 ^ 53) (Z.pos mb)). lia. }
  assert (Hy1 : (inject_Z q * 2 ^ e' <= y)%Q).
  { subst y. apply Qle_shift_div_l; [exact Hvb|]. rewrite Hscale. unfold Qval.
    setoid_replace (inject_Z q * 2 ^ e' * (inject_Z (Z.pos mb) * 2 ^ eb))%Q
      with (inject_Z (q * Z.pos mb) * (2 ^ e' * 2 ^ eb))%Q
      by (rewrite inject_Z_mult; ring).
    apply Qmult_le_compat_r; [|apply Qlt_le_weak; exact Hpp].
    rewrite <- Zle_Qle. exact Hq1. }
  assert (Hy2 : (y <= inject_Z (q + 1) * 2 ^ e')%Q).
  { subst y. apply Qle_shift_div_r; [exact Hvb|]. rewrite Hscale. unfold Qval.
    setoid_replace (inject_Z (q + 1) * 2 ^ e' * (inject_Z (Z.pos mb) * 2 ^ eb))%Q
      with (inject_Z ((q + 1) * Z.pos mb) * (2 ^ e' * 2 ^ eb))%Q
      by (rewrite inject_Z_mult; ring).
    apply Qmult_le_compat_r; [|apply Qlt_le_weak; exact Hpp].
    rewrite <- Zle_Qle. exact Hq2. }
  destruct (binary_round_aux_error (xorb false false) q e' l y)
    as (M & E & Heq & HM & HE & Hlo & Hhi); try lia; try assumption.
  exists M, E. split; [exact Heq|]. split; [exact HM|]. split; [lia|].
  rewrite <- Hyb. split.
  - setoid_replace ((1 - ulp_rel) * (y * Qval mb eb))%Q
      with ((1 - ulp_rel) * y * Qval mb eb)%Q by ring.
    apply Qmult_le_compat_r; [exact Hlo | apply Qlt_le_weak; exact Hvb].
  - setoid_replace ((1 + ulp_rel) * (y * Qval mb eb))%Q
      with ((1 + ulp_rel) * y * Qval mb eb)%Q by ring.
    apply Qmult_le_compat_r; [exact Hhi | apply Qlt_le_weak; exact Hvb].
Qed.

(** Multiplication of two positive normal doubles. *)
Lemma num_mul_spec (ma mb : positive) (ea eb : Z) :
  2 ^ 52 <= Z.pos ma < 2 ^ 53 -> 2 ^ 52 <= Z.pos mb < 2 ^ 53 ->
  -400 <= ea <= 400 -> -400 <= eb <= 400 ->
  exists (M : positive) (E : Z),
    num_mul (S754_finite false ma ea) (S754_finite false mb eb) = S754_finite false M E
    /\ 2 ^ 52 <= Z.pos M < 2 ^ 53
    /\ ea + eb + 52 <= E <= ea + eb + 54
    /\ ((1 - ulp_rel) * (Qval ma ea * Qval mb eb) <= Qval M E)%Q
    /\ (Qval M E <= (1 + ulp_rel) * (Qval ma ea * Qval mb eb))%Q.
Proof.
  intros Ha Hb Hea Heb. unfold num_mul, SFmul.
  set (p := Z.pos (ma * mb)).
  assert (Hp : 2 ^ 104 <= p < 2 ^ 106).
  { subst p. rewrite Pos2Z.inj_mul.
    change (2 ^ 104) with (2 ^ 52 * 2 ^ 52). change (2 ^ 106) with (2 ^ 53 * 2 ^ 53).
    nia. }
  assert (Hdp : 105 <= Zdigits2 p <= 106).
  { destruct (Z_lt_le_dec p (2 ^ 105)).
    - rewrite (Zdigits2_unique p 105) by (cbn; lia). lia.
    - rewrite (Zdigits2_unique p 106) by (cbn; lia). lia. }
  assert (Hy : (Qval ma ea * Qval mb eb == inject_Z p * 2 ^ (ea + eb))%Q).
  { unfold Qval. subst p. rewrite Pos2Z.inj_mul, inject_Z_mult, Qpow2_add. ring. }
  pose proof (Qpow2_pos (ea + eb)) as Hpe.
  destruct (binary_round_aux_error (xorb false false) p (ea + eb) loc_Exact
              (Qval ma ea * Qval mb eb))
    as (M & E & Heq & HM & HE & Hlo & Hhi); try lia.
  - rewrite Hy. apply Qle_refl.
  - rewrite Hy. apply Qmult_le_compat_r; [|apply Qlt_le_weak; exact Hpe].
    rewrite <- Zle_Qle. lia.
  - exists M, E. split; [exact Heq|]. split; [exact HM|]. split; [lia|].
    split; assumption.
Qed.

Lemma Pos_iter_xO (p d : positive) : Z.pos (Pos.iter xO p d) = Z.pos p * 2 ^ Z.pos d.
Proof.
  induction d as [|d IH] using Pos.peano_ind.
  - cbn [Pos.iter]. rewrite Pos2Z.inj_xO. change (2 ^ 1) with 2. lia.
  - rewrite Pos.iter_succ, Pos2Z.inj_xO, IH, Pos2Z.inj_succ, Z.pow_succ_r by lia. lia.
Qed.

(** The Number value of a positive integer below 2^52. *)
Lemma Number_of_Z_spec (z : Z) :
  0 < z < 2 ^ 52 ->
  exists (M : positive) (E : Z),
    Number_of_Z z = S754_finite false M E
    /\ 2 ^ 52 <= Z.pos M < 2 ^ 53
    /\ Zdigits2 z - 53 <= E <= Zdigits2 z - 52
    /\ ((1 - ulp_rel) * inject_Z z <= Qval M E)%Q
    /\ (Qval M E <= (1 + ulp_rel) * inject_Z z)%Q.
Proof.
  intros Hz. destruct z as [|p|p]; try lia.
  unfold Number_of_Z, binary_normalize, binary_round.
  pose proof (digits2_bounds p) as Hb. cbn [Zdigits2].
  set (d := Z.pos (digits2_pos p)) in *.
  assert (Hd : 1 <= d <= 52).
  { split; [subst d; lia|].
    destruct (Z_le_gt_dec d 52); [assumption|].
    assert (2 ^ 52 <= 2 ^ (d - 1)) by (apply Z.pow_le_mono_r; lia). lia. }
  rewrite fexp_normal by lia. unfold shl_align.
  destruct (d + 0 - 53 - 0) as [|k|k] eqn:Hk; try lia.
  assert (Hk' : Z.pos k = 53 - d).
  { clearbody d. clear - Hk. pose proof (Pos2Z.opp_pos k). lia. }
  set (mz := Z.pos (Pos.iter xO p k)).
  assert (Hmz : mz = Z.pos p * 2 ^ (53 - d)) by (subst mz; rewrite Pos_iter_xO, Hk'; reflexivity).
  assert (Hmzb : 2 ^ 52 <= mz < 2 ^ 53).
  { assert (E52 : 2 ^ 52 = 2 ^ (d - 1) * 2 ^ (53 - d))
      by (rewrite <- pow2_split by lia; f_equal; lia).
    assert (E53 : 2 ^ 53 = 2 ^ d * 2 ^ (53 - d))
      by (rewrite <- pow2_split by lia; f_equal; lia).
    assert (0 < 2 ^ (53 - d)) by (apply Z.pow_pos_nonneg; lia).
    rewrite Hmz, E52, E53.
    split; [apply Z.mul_le_mono_nonneg_r | apply Zmult_lt_compat_r]; lia. }
  assert (Hdz : Zdigits2 mz = 53) by (apply Zdigits2_unique; [lia | exact Hmzb]).
  assert (Hv : (inject_Z mz * 2 ^ (d + 0 - 53) == inject_Z (Z.pos p))%Q).
  { rewrite Hmz, inject_Z_mult, <- (Qpow2_Z (53 - d)) by lia.
    rewrite <- Qmult_assoc, <- Qpow2_add.
    replace (53 - d + (d + 0 - 53)) with 0 by lia. cbn. ring. }
  pose proof (Qpow2_pos (d + 0 - 53)) as Hpe.
  destruct (binary_round_aux_error false mz (d + 0 - 53) loc_Exact (inject_Z (Z.pos p)))
    as (M & E & Heq & HM & HE & Hlo & Hhi); try lia.
  - rewrite Hv. apply Qle_refl.
  - rewrite <- Hv. apply Qmult_le_compat_r; [|apply Qlt_le_weak; exact Hpe].
    rewrite <- Zle_Qle. lia.
  - exists M, E. split; [exact Heq|]. split; [exact HM|]. split; [lia|].
    split; assumption.
Qed.

(** [Math.round] of a positive double below 2^53 whose exact value lies in
    [T - 1/2, T + 1/2). *)
Lemma Math_round_spec (M : positive) (E T : Z) :
  E < 0 ->
  (inject_Z T - (1 # 2) <= Qval M E)%Q -> (Qval M E < inject_Z T + (1 # 2))%Q ->
  Math_round (S754_finite false M E) = Number_of_Z T.
Proof.
  intros HE Hlo Hhi. unfold Math_round.
  replace (0 <=? E) with false by (symmetry; apply Z.leb_gt; exact HE).
  cbv zeta. unfold Number_of_Z. f_equal.
  set (d := 2 ^ (- E)).
  assert (Hd : 0 < d) by (apply Z.pow_pos_nonneg; lia).
  assert (Hinv : (2 ^ E * inject_Z d == 1)%Q).
  { subst d. rewrite <- (Qpow2_Z (- E)) by lia. rewrite <- Qpow2_add.
    replace (E + - E) with 0 by lia. reflexivity. }
  assert (HdQ : (0 < inject_Z d)%Q) by (rewrite <- (Zlt_Qlt 0); exact Hd).
  assert (Hval : (Qval M E * inject_Z d == inject_Z (Z.pos M))%Q).
  { unfold Qval. rewrite <- Qmult_assoc, Hinv. ring. }
  assert (H1 : 2 * T * d <= 2 * Z.pos M + d).
  { rewrite Zle_Qle, inject_Z_plus, !inject_Z_mult, <- Hval.
    change (inject_Z 2) with 2%Q.
    setoid_replace (2 * (Qval M E * inject_Z d) + inject_Z d)%Q
      with ((2 * Qval M E + 1) * inject_Z d)%Q by ring.
    apply Qmult_le_compat_r; [lra | apply Qlt_le_weak; exact HdQ]. }
  assert (H2 : 2 * Z.pos M + d < (2 * T + 2) * d).
  { rewrite Zlt_Qlt, !inject_Z_mult, !inject_Z_plus, !inject_Z_mult, <- Hval.
    change (inject_Z 2) with 2%Q.
    setoid_replace (2 * (Qval M E * inject_Z d) + inject_Z d)%Q
      with ((2 * Qval M E + 1) * inject_Z d)%Q by ring.
    apply Qmult_lt_compat_r; [exact HdQ | lra]. }
  symmetry. apply Z.div_unique with (r := 2 * Z.pos M + d - 2 * d * T); nia.
Qed.

Lemma Zdigits2_le (z k : Z) : 0 < z < 2 ^ k -> 0 <= k -> 1 <= Zdigits2 z <= k.
Proof.
  intros Hz Hk. destruct z as [|p|p]; try lia. cbn [Zdigits2].
  pose proof (digits2_bounds p) as Hb. split; [lia|].
  destruct (Z_le_gt_dec (Z.pos (digits2_pos p)) k); [assumption|].
  assert (2 ^ k <= 2 ^ (Z.pos (digits2_pos p) - 1)) by (apply Z.pow_le_mono_r; lia).
  lia.
Qed.

(** The double handed to [Math.round] for a payload of [n] bytes, with
    [0 < n < 2^32]: a positive double with a negative exponent, less than
    1/48 away from [n / 48]. *)
Lemma scaled_duration_close (n : N) :
  (0 < n < 2 ^ 32)%N ->
  exists (M : positive) (E : Z),
    num_mul (num_div (num_div (Number_of_N n) bytesPerSample) sampleRate_const)
            (Number_of_Z 1000)
    = S754_finite false M E
    /\ E < 0
    /\ (inject_Z (Z.of_N n) - 1 < 48 * Qval M E)%Q
    /\ (48 * Qval M E < inject_Z (Z.of_N n) + 1)%Q.
Proof.
  intros Hn. unfold Number_of_N.
  set (z := Z.of_N n).
  assert (Hz : 0 < z < 2 ^ 32) by (subst z; change (2 ^ 32) with (Z.of_N (2 ^ 32)); lia).
  destruct (Number_of_Z_spec z) as (M0 & E0 & -> & HM0 & HE0 & L0 & U0); [lia|].
  pose proof (Zdigits2_le z 32 Hz) as Hd.
  change bytesPerSample with (S754_finite false 4503599627370496 (-51)).
  destruct (num_div_spec M0 4503599627370496 E0 (-51))
    as (M1 & E1 & -> & HM1 & HE1 & L1 & U1); try lia.
  change sampleRate_const with (S754_finite false 6597069766656000 (-38)).
  destruct (num_div_spec M1 6597069766656000 E1 (-38))
    as (M2 & E2 & -> & HM2 & HE2 & L2 & U2); try lia.
  change (Number_of_Z 1000) with (S754_finite false 8796093022208000 (-43)).
  destruct (num_mul_spec M2 8796093022208000 E2 (-43))
    as (M3 & E3 & -> & HM3 & HE3 & L3 & U3); try lia.
  exists M3, E3. split; [reflexivity|]. split; [lia|].
  assert (C2 : (Qval 4503599627370496 (-51) == 2)%Q) by (vm_compute; reflexivity).
  assert (C24 : (Qval 6597069766656000 (-38) == 24000)%Q) by (vm_compute; reflexivity).
  assert (C1000 : (Qval 8796093022208000 (-43) == 1000)%Q) by (vm_compute; reflexivity).
  rewrite C2 in L1, U1. rewrite C24 in L2, U2. rewrite C1000 in L3, U3.
  assert (Hz0 : (0 < inject_Z z)%Q) by (rewrite <- (Zlt_Qlt 0); lia).
  assert (Hz1 : (inject_Z z < 4294967296)%Q).
  { change 4294967296%Q with (inject_Z (2 ^ 32)). rewrite <- Zlt_Qlt. lia. }
  unfold ulp_rel in *.
  generalize dependent (Qval M3 E3). generalize dependent (Qval M2 E2).
  generalize dependent (Qval M1 E1). generalize dependent (Qval M0 E0).
  generalize dependent (inject_Z z).
  intros q Hq0 Hq1 v0 L0 U0 v1 L1 U1 v2 L2 U2 v3 L3 U3.
  split; lra.
Qed.

Lemma exact_round_bounds (n : N) :
  48 * exact_round_n_over_48 n <= Z.of_N n + 24 < 48 * exact_round_n_over_48 n + 48.
Proof.
  unfold exact_round_n_over_48.
  pose proof (Z.div_mod (Z.of_N n + 24) 48 ltac:(lia)).
  pose proof (Z.mod_pos_bound (Z.of_N n + 24) 48 ltac:(lia)). lia.
Qed.

Lemma exact_round_tie (n : N) :
  (n mod 48 = 24)%N <-> Z.of_N n + 24 = 48 * exact_round_n_over_48 n.
Proof.
  unfold exact_round_n_over_48.
  pose proof (N.div_mod n 48 ltac:(lia)) as Hn.
  pose proof (N.mod_upper_bound n 48 ltac:(lia)) as Hnb.
  set (r := (n mod 48)%N) in *. set (q := (n / 48)%N) in *. clearbody r q.
  assert (Hz : Z.of_N n + 24 = Z.of_N r + 24 + Z.of_N q * 48) by lia.
  rewrite Hz, Z.div_add by lia.
  destruct (Z_lt_le_dec (Z.of_N r) 24) as [Hlt|Hge].
  - rewrite (Z.div_small (Z.of_N r + 24)) by lia. split; lia.
  - replace (Z.of_N r + 24) with (Z.of_N r - 24 + 1 * 48) by lia.
    rewrite Z.div_add, (Z.div_small (Z.of_N r - 24)) by lia. split; lia.
Qed.

Lemma duration_zero : duration_of_length (Number_of_N 0) = Number_of_Z 0.
Proof. vm_compute. reflexivity. Qed.

(** Below 4 GiB, and away from the ties of [n / 48], the computed duration
    is [n / 48] rounded to the nearest integer. *)
Lemma duration_closed_form (n : N) :
  (n < 2 ^ 32)%N -> (n mod 48 <> 24)%N ->
  duration_of_length (Number_of_N n) = Number_of_Z (exact_round_n_over_48 n).
Proof.
  intros Hn Htie. destruct (N.eq_dec n 0) as [->|Hn0]; [apply duration_zero|].
  destruct (scaled_duration_close n) as (M & E & Heq & HE & Hlo & Hhi); [lia|].
  unfold duration_of_length. cbv zeta. rewrite Heq.
  pose proof (exact_round_bounds n) as Hb.
  assert (Hne : Z.of_N n + 24 <> 48 * exact_round_n_over_48 n)
    by (rewrite <- exact_round_tie; exact Htie).
  set (T := exact_round_n_over_48 n) in *. set (z := Z.of_N n) in *.
  assert (Q1 : (48 * inject_Z T + 1 <= inject_Z z + 24)%Q).
  { change 48%Q with (inject_Z 48). change 1%Q with (inject_Z 1).
    change 24%Q with (inject_Z 24).
    rewrite <- inject_Z_mult, <- !inject_Z_plus, <- Zle_Qle. lia. }
  assert (Q2 : (inject_Z z + 24 <= 48 * inject_Z T + 47)%Q).
  { change 48%Q with (inject_Z 48). change 47%Q with (inject_Z 47).
    change 24%Q with (inject_Z 24).
    rewrite <- inject_Z_mult, <- !inject_Z_plus, <- Zle_Qle. lia. }
  apply Math_round_spec; [exact HE | lra | lra].
Qed.

(** Away from the ties, [Math.round(n / 48)] is the same integer. *)
Lemma round_n_over_48_exact (n : N) :
  (n < 2 ^ 32)%N -> (n mod 48 <> 24)%N ->
  round_n_over_48 n = Number_of_Z (exact_round_n_over_48 n).
Proof.
  intros Hn Htie. destruct (N.eq_dec n 0) as [->|Hn0]; [vm_compute; reflexivity|].
  unfold round_n_over_48, Number_of_N.
  set (z := Z.of_N n).
  assert (Hz : 0 < z < 2 ^ 32) by (subst z; change (2 ^ 32) with (Z.of_N (2 ^ 32)); lia).
  destruct (Number_of_Z_spec z) as (M0 & E0 & -> & HM0 & HE0 & L0 & U0); [lia|].
  pose proof (Zdigits2_le z 32 Hz) as Hd.
  change (Number_of_Z 48) with (S754_finite false 6755399441055744 (-47)).
  destruct (num_div_spec M0 6755399441055744 E0 (-47))
    as (M1 & E1 & -> & HM1 & HE1 & L1 & U1); try lia.
  assert (C48 : (Qval 6755399441055744 (-47) == 48)%Q) by (vm_compute; reflexivity).
  rewrite C48 in L1, U1.
  pose proof (exact_round_bounds n) as Hb.
  assert (Hne : Z.of_N n + 24 <> 48 * exact_round_n_over_48 n)
    by (rewrite <- exact_round_tie; exact Htie).
  set (T := exact_round_n_over_48 n) in *. fold z in Hb, Hne.
  assert (Q1 : (48 * inject_Z T + 1 <= inject_Z z + 24)%Q).
  { change 48%Q with (inject_Z 48). change 1%Q with (inject_Z 1).
    change 24%Q with (inject_Z 24).
    rewrite <- inject_Z_mult, <- !inject_Z_plus, <- Zle_Qle. lia. }
  assert (Q2 : (inject_Z z + 24 <= 48 * inject_Z T + 47)%Q).
  { change 48%Q with (inject_Z 48). change 47%Q with (inject_Z 47).
    change 24%Q with (inject_Z 24).
    rewrite <- inject_Z_mult, <- !inject_Z_plus, <- Zle_Qle. lia. }
  assert (Hz0 : (0 < inject_Z z)%Q) by (rewrite <- (Zlt_Qlt 0); lia).
  assert (Hz1 : (inject_Z z < 4294967296)%Q).
  { change 4294967296%Q with (inject_Z (2 ^ 32)). rewrite <- Zlt_Qlt. lia. }
  unfold ulp_rel in *.
  apply Math_round_spec; [lia | lra | lra].
Qed.

(** At a tie the computed duration is the rounded-up value or one less. *)
Lemma duration_at_tie (n : N) :
  (n < 2 ^ 32)%N -> (n mod 48 = 24)%N ->
  duration_of_length (Number_of_N n) = Number_of_Z (exact_round_n_over_48 n)
  \/ duration_of_length (Number_of_N n) = Number_of_Z (exact_round_n_over_48 n - 1).
Proof.
  intros Hn Htie.
  assert (Hn0 : n <> 0%N) by (intros ->; discriminate).
  destruct (scaled_duration_close n) as (M & E & Heq & HE & Hlo & Hhi); [lia|].
  unfold duration_of_length. cbv zeta. rewrite Heq.
  apply exact_round_tie in Htie.
  set (T := exact_round_n_over_48 n) in *. set (z := Z.of_N n) in *.
  assert (Q1 : (inject_Z z + 24 == 48 * inject_Z T)%Q).
  { change 48%Q with (inject_Z 48). change 24%Q with (inject_Z 24).
    rewrite <- inject_Z_mult, <- !inject_Z_plus, Htie. reflexivity. }
  destruct (Qlt_le_dec (Qval M E) (inject_Z T - (1 # 2))) as [Hlt|Hge].
  - right.
    assert (HT : (inject_Z (T - 1) + 1 == inject_Z T)%Q).
    { change 1%Q with (inject_Z 1). rewrite <- inject_Z_plus.
      replace (T - 1 + 1) with T by lia. reflexivity. }
    apply Math_round_spec; [exact HE | lra | lra].
  - left. apply Math_round_spec; [exact HE | lra | lra].
Qed.

(** ** The speed interval on exact values *)

Lemma valid_mantissa (m : positive) (e : Z) :
  bounded prec emax m e = true ->
  Z.pos m < 2 ^ 53 /\ (-1074 < e -> 2 ^ 52 <= Z.pos m).
Proof.
  unfold bounded, canonical_mantissa. intros H.
  apply andb_true_iff in H as [Hc _]. apply Z.eqb_eq in Hc.
  unfold fexp, emin, prec, emax in Hc.
  pose proof (digits2_bounds m) as [Bl Bu].
  set (d := Z.pos (digits2_pos m)) in *.
  assert (Hd : d <= 53) by lia.
  split.
  - assert (2 ^ d <= 2 ^ 53) by (apply Z.pow_le_mono_r; lia). lia.
  - intros He. assert (d = 53) by lia. replace (d - 1) with 52 in Bl by lia. exact Bl.
Qed.

Lemma Qpow2_le (a b : Z) : a <= b -> (2 ^ a <= 2 ^ b)%Q.
Proof. intros H. apply Qpower_le_compat_l; [exact H | discriminate]. Qed.

Lemma Qval_lt_pow (m : positive) (e k : Z) :
  Z.pos m < 2 ^ 53 -> e + 53 <= k -> (Qval m e < 2 ^ k)%Q.
Proof.
  intros Hm Hk. unfold Qval.
  apply Qlt_le_trans with (inject_Z (2 ^ 53) * 2 ^ e)%Q.
  - apply Qmult_lt_compat_r; [apply Qpow2_pos | rewrite <- Zlt_Qlt; exact Hm].
  - rewrite <- (Qpow2_Z 53), <- Qpow2_add by lia. apply Qpow2_le. lia.
Qed.

Lemma Qval_ge_pow (m : positive) (e k : Z) :
  2 ^ 52 <= Z.pos m -> k <= e + 52 -> (2 ^ k <= Qval m e)%Q.
Proof.
  intros Hm Hk. unfold Qval.
  apply Qle_trans with (inject_Z (2 ^ 52) * 2 ^ e)%Q.
  - rewrite <- (Qpow2_Z 52), <- Qpow2_add by lia. apply Qpow2_le. lia.
  - apply Qmult_le_compat_r; [rewrite <- Zle_Qle; exact Hm|].
    apply Qlt_le_weak, Qpow2_pos.
Qed.

Lemma SPEED_MIN_eq : SPEED_MIN = S754_finite false 4503599627370496 (-54).
Proof. vm_compute. reflexivity. Qed.

Lemma SPEED_MAX_eq : SPEED_MAX = S754_finite false 4503599627370496 (-50).
Proof. vm_compute. reflexivity. Qed.

Lemma Qvalue_SPEED_MIN : (Qvalue SPEED_MIN == 1 # 4)%Q.
Proof. vm_compute. reflexivity. Qed.

Lemma Qvalue_SPEED_MAX : (Qvalue SPEED_MAX == 4)%Q.
Proof. vm_compute. reflexivity. Qed.

Lemma compare_cont_Eq (a b : positive) : Pos.compare_cont Eq a b = (a ?= b)%positive.
Proof. reflexivity. Qed.

(** Below 0.25, on a valid positive double. *)
Lemma lt_quarter_exact (m : positive) (e : Z) :
  bounded prec emax m e = true ->
  (num_lt (S754_finite false m e) SPEED_MIN = true <-> (Qval m e < 1 # 4)%Q).
Proof.
  intros Hv. destruct (valid_mantissa m e Hv) as [Hu Hl].
  rewrite SPEED_MIN_eq. unfold num_lt, SFltb, SFcompare.
  assert (Q14 : ((1 # 4) == 2 ^ (-2))%Q) by reflexivity.
  destruct (Z.compare_spec e (-54)) as [He|He|He].
  - subst e. rewrite compare_cont_Eq.
    assert (Hs : (Qval m (-54) < 1 # 4)%Q <-> Z.pos m < 2 ^ 52).
    { unfold Qval. rewrite Zlt_Qlt.
      assert (E : ((1 # 4) == inject_Z (2 ^ 52) * 2 ^ (-54))%Q) by reflexivity.
      rewrite E. apply Qmult_lt_r. apply Qpow2_pos. }
    rewrite Hs. change (2 ^ 52) with (Z.pos 4503599627370496).
    unfold Z.lt. cbn [Z.compare].
    destruct (m ?= 4503599627370496)%positive; split; congruence.
  - split; [intros _ | reflexivity].
    rewrite Q14. apply Qval_lt_pow; [exact Hu | lia].
  - split; [discriminate|]. intros H. exfalso.
    assert (H2 : (2 ^ (-1) <= Qval m e)%Q) by (apply Qval_ge_pow; [apply Hl; lia | lia]).
    change (2 ^ (-1))%Q with (1 # 2)%Q in H2. lra.
Qed.

(** Above 4, on a valid positive double. *)
Lemma gt_four_exact (m : positive) (e : Z) :
  bounded prec emax m e = true ->
  (num_lt SPEED_MAX (S754_finite false m e) = true <-> (4 < Qval m e)%Q).
Proof.
  intros Hv. destruct (valid_mantissa m e Hv) as [Hu Hl].
  rewrite SPEED_MAX_eq. unfold num_lt, SFltb, SFcompare.
  rewrite Z.compare_antisym.
  destruct (Z.compare_spec e (-50)) as [He|He|He]; cbn [CompOpp].
  - subst e. rewrite compare_cont_Eq.
    assert (Hs : (4 < Qval m (-50))%Q <-> 2 ^ 52 < Z.pos m).
    { unfold Qval. rewrite Zlt_Qlt.
      assert (E : (4 == inject_Z (2 ^ 52) * 2 ^ (-50))%Q) by reflexivity.
      rewrite E. apply Qmult_lt_r. apply Qpow2_pos. }
    rewrite Hs. change (2 ^ 52) with (Z.pos 4503599627370496).
    unfold Z.lt. cbn [Z.compare].
    destruct (4503599627370496 ?= m)%positive; split; congruence.
  - split; [discriminate|]. intros H. exfalso.
    assert (H2 : (Qval m e < 2 ^ 2)%Q) by (apply Qval_lt_pow; [exact Hu | lia]).
    change (2 ^ 2)%Q with 4%Q in H2. lra.
  - split; [intros _ | reflexivity].
    assert (H2 : (2 ^ 3 <= Qval m e)%Q) by (apply Qval_ge_pow; [apply Hl; lia | lia]).
    change (2 ^ 3)%Q with 8%Q in H2. lra.
Qed.

(** On valid doubles the comparisons of [validateConfig] decide the
    interval on exact values. *)
Lemma speed_out_of_range_exact (x : number) :
  valid_binary prec emax x = true -> x <> S754_nan ->
  (speed_out_of_range x = true <-> outside_speed_interval x).
Proof.
  intros Hv Hnan. unfold speed_out_of_range.
  destruct x as [s|s| |s m e]; try contradiction.
  - cbn. split; [intros _; left; reflexivity | reflexivity].
  - destruct s; cbn; split; auto.
  - cbn [valid_binary] in Hv. rewrite orb_true_iff. cbn [outside_speed_interval Qvalue].
    destruct s.
    + pose proof (Qval_pos m e) as Hp. split.
      * intros _. left. lra.
      * intros _. left. rewrite SPEED_MIN_eq. reflexivity.
    + rewrite (lt_quarter_exact m e Hv), (gt_four_exact m e Hv). reflexivity.
Qed.

Lemma speed_in_range_exact (x : number) :
  valid_binary prec emax x = true ->
  inside_speed_interval x -> speed_out_of_range x = false.
Proof.
  intros Hv Hin. destruct (speed_out_of_range x) eqn:Ho; [|reflexivity].
  exfalso.
  destruct x as [s|s| |s m e]; cbn [inside_speed_interval] in Hin; try contradiction.
  - cbn [Qvalue] in Hin. lra.
  - apply speed_out_of_range_exact in Ho; [|exact Hv|discriminate].
    cbn [outside_speed_interval] in Ho. lra.
Qed.

(** ** Running [synthesize] *)

Section Runs.
Context {RT : Runtime}.

Lemma run_synthesize_ok (rev : revision) (this : OpenAITTSProvider) (txt : string)
    (options : option TTSOptions) (net : network) (r : Response) :
  net SPEECH_URL (synthesize_init rev this txt options) = Fulfilled r ->
  ok r = true ->
  run net (synthesize rev this txt options)
  = (Normal {| audio := arrayBuffer r;
               format := pcm_s16le;
               sampleRate := sampleRate_const;
               durationMs := duration_of_length (Buffer_length (arrayBuffer r)) |},
     [EvFetch SPEECH_URL (synthesize_init rev this txt options); EvArrayBuffer]).
Proof.
  intros Hnet Hok. unfold run, synthesize, await_fetch. cbn [bind run_reads].
  rewrite Hnet. cbn [bind]. rewrite Hok. reflexivity.
Qed.

Lemma run_synthesize_not_ok (rev : revision) (this : OpenAITTSProvider) (txt : string)
    (options : option TTSOptions) (net : network) (r : Response) :
  net SPEECH_URL (synthesize_init rev this txt options) = Fulfilled r ->
  ok r = false ->
  run net (synthesize rev this txt options)
  = (Thrown (Error ("OpenAI TTS failed: " ++ N_toString (status r) ++ " - " ++ text r)),
     [EvFetch SPEECH_URL (synthesize_init rev this txt options); EvText]).
Proof.
  intros Hnet Hok. unfold run, synthesize, await_fetch. cbn [bind run_reads].
  rewrite Hnet. cbn [bind]. rewrite Hok. reflexivity.
Qed.

Lemma run_synthesize_rejected (rev : revision) (this : OpenAITTSProvider) (txt : string)
    (options : option TTSOptions) (net : network) (e : JsError) :
  net SPEECH_URL (synthesize_init rev this txt options) = Rejected e ->
  run net (synthesize rev this txt options)
  = (Thrown e, [EvFetch SPEECH_URL (synthesize_init rev this txt options)]).
Proof.
  intros Hnet. unfold run, synthesize, await_fetch. cbn [bind run_reads].
  rewrite Hnet. reflexivity.
Qed.

(** Whatever the network answers, a run of [synthesize] starts with its one
    [fetch] and performs no other. *)
Lemma synthesize_fetches (rev : revision) (this : OpenAITTSProvider) (txt : string)
    (options : option TTSOptions) (net : network) :
  fetches (trace net (synthesize rev this txt options))
  = [EvFetch SPEECH_URL (synthesize_init rev this txt options)].
Proof.
  unfold trace.
  destruct (net SPEECH_URL (synthesize_init rev this txt options)) as [r|e] eqn:Hnet.
  - destruct (ok r) eqn:Hok.
    + rewrite (run_synthesize_ok _ _ _ _ _ _ Hnet Hok). reflexivity.
    + rewrite (run_synthesize_not_ok _ _ _ _ _ _ Hnet Hok). reflexivity.
  - rewrite (run_synthesize_rejected _ _ _ _ _ _ Hnet). reflexivity.
Qed.

End Runs.

(** ** Duration of a decoded payload *)

Lemma duration_is_spec (n : N) : duration_of_length (Number_of_N n) = spec_durationMs n.
Proof. reflexivity. Qed.

Lemma duration_48000 : duration_of_length (Number_of_N 48000) = Number_of_Z 1000.
Proof. vm_compute. reflexivity. Qed.

(** The arithmetic reading of the formula is [n / 48] rounded to the
    nearest integer. *)
Lemma spec_durationMs_exact_eq (n : N) :
  spec_durationMs_exact n = exact_round_n_over_48 n.
Proof.
  pose proof (exact_round_bounds n) as Hb.
  unfold spec_durationMs_exact.
  set (T := exact_round_n_over_48 n) in *. set (z := Z.of_N n) in *.
  set (x := (spec_duration_exact n + (1 # 2))%Q).
  assert (Hx : (48 * x == inject_Z z + 24)%Q).
  { subst x. unfold spec_duration_exact. fold z. field. }
  assert (Q1 : (48 * inject_Z T <= inject_Z z + 24)%Q).
  { change 48%Q with (inject_Z 48). change 24%Q with (inject_Z 24).
    rewrite <- inject_Z_mult, <- inject_Z_plus, <- Zle_Qle. lia. }
  assert (Q2 : (inject_Z z + 24 < 48 * inject_Z (T + 1))%Q).
  { change 48%Q with (inject_Z 48). change 24%Q with (inject_Z 24).
    rewrite <- inject_Z_mult, <- inject_Z_plus, <- Zlt_Qlt. lia. }
  assert (L1 : T <= Qfloor x).
  { rewrite <- (Qfloor_Z T). apply Qfloor_resp_le. lra. }
  assert (L2 : Qfloor x < T + 1).
  { rewrite Zlt_Qlt. apply Qle_lt_trans with x; [apply Qfloor_le | lra]. }
  lia.
Qed.

(** C1, as stated with the formula read as arithmetic, fails: for a payload
    of 24024 bytes [(24024 / 2 / 24000) * 1000] is 500.5, which rounds to
    501, but the doubles of the code give 500.49999999999994 and
    [synthesize] returns 500. *)
Lemma C1_counterexample :
  (exists res : TTSSynthesisResult,
     outcome (always (ok_response (zero_bytes 24024)))
             (synthesize (RT := Sample.runtime) index_ts test_provider "Hello world"
                no_options)
     = Normal res
     /\ durationMs res = Number_of_Z 500)
  /\ (spec_duration_exact 24024 == 1001 # 2)%Q
  /\ spec_durationMs_exact 24024 = 501
  /\ Number_of_Z 500 <> Number_of_Z (spec_durationMs_exact 24024).
Proof.
  split.
  - unfold outcome.
    rewrite (run_synthesize_ok (RT := Sample.runtime) index_ts test_provider "Hello world"
               no_options _ (ok_response (zero_bytes 24024)) eq_refl eq_refl).
    eexists. split; [reflexivity|]. cbn [durationMs arrayBuffer ok_response].
    unfold Buffer_from, Buffer_length, zero_bytes. rewrite repeat_length, N2Nat.id.
    vm_compute. reflexivity.
  - split; [reflexivity|]. split; [reflexivity|].
    vm_compute. discriminate.
Qed.

(** C1, amended. In both revisions, when the speech request is answered
    with a successful response carrying a raw PCM payload of [byteLength]
    bytes, [synthesize] returns a result whose [durationMs] is
    [Math.round((byteLength / 2 / 24000) * 1000)] evaluated in double
    arithmetic.  For payloads below 2^32 bytes this is the exact value of
    [(byteLength / 2 / 24000) * 1000] rounded to the nearest integer whenever
    that value is not halfway between two integers
    ([byteLength mod 48 <> 24]), and at such a tie the rounded-up value or
    one less.  A payload of 48000 bytes gives 1000. *)
Theorem C1_duration_formula {RT : Runtime} (rev : revision) (this : OpenAITTSProvider)
    (txt : string) (options : option TTSOptions) (net : network) (r : Response) :
  net SPEECH_URL (synthesize_init rev this txt options) = Fulfilled r ->
  ok r = true ->
  exists res : TTSSynthesisResult,
    outcome net (synthesize rev this txt options) = Normal res
    /\ durationMs res = spec_durationMs (N.of_nat (List.length (arrayBuffer r)))
    /\ ((N.of_nat (List.length (arrayBuffer r)) < 2 ^ 32)%N ->
        (N.of_nat (List.length (arrayBuffer r)) mod 48 <> 24)%N ->
        durationMs res
        = Number_of_Z (spec_durationMs_exact (N.of_nat (List.length (arrayBuffer r)))))
    /\ ((N.of_nat (List.length (arrayBuffer r)) < 2 ^ 32)%N ->
        (N.of_nat (List.length (arrayBuffer r)) mod 48 = 24)%N ->
        durationMs res
        = Number_of_Z (spec_durationMs_exact (N.of_nat (List.length (arrayBuffer r))))
        \/ durationMs res
           = Number_of_Z
               (spec_durationMs_exact (N.of_nat (List.length (arrayBuffer r))) - 1))
    /\ (N.of_nat (List.length (arrayBuffer r)) = 48000%N ->
        durationMs res = Number_of_Z 1000
        /\ spec_durationMs_exact 48000 = 1000).
Proof.
  intros Hnet Hok. unfold outcome.
  rewrite (run_synthesize_ok _ _ _ _ _ _ Hnet Hok). cbn [fst].
  eexists. split; [reflexivity|]. cbn [durationMs]. unfold Buffer_length, Buffer_from.
  rewrite spec_durationMs_exact_eq.
  split; [apply duration_is_spec|]. split; [|split].
  - apply duration_closed_form.
  - apply duration_at_tie.
  - intros ->. split; [apply duration_48000 | reflexivity].
Qed.

Lemma C1_duration_formula_witness :
  exists res : TTSSynthesisResult,
    outcome (always (ok_response (zero_bytes 48000)))
            (synthesize (RT := Sample.runtime) part_004 test_provider "Hello world" no_options)
    = Normal res
    /\ durationMs res = Number_of_Z (spec_durationMs_exact 48000)
    /\ durationMs res = Number_of_Z 1000.
Proof.
  destruct (C1_duration_formula (RT := Sample.runtime) part_004 test_provider "Hello world"
              no_options (always (ok_response (zero_bytes 48000)))
              (ok_response (zero_bytes 48000)) eq_refl eq_refl)
    as (res & Hres & _ & Hexact & _ & H48).
  assert (Hlen : N.of_nat (List.length (arrayBuffer (ok_response (zero_bytes 48000))))
                 = 48000%N).
  { cbn [arrayBuffer ok_response]. unfold zero_bytes. now rewrite repeat_length, N2Nat.id. }
  exists res. split; [exact Hres|]. split.
  - rewrite Hlen in Hexact. apply Hexact; [reflexivity | discriminate].
  - apply H48. exact Hlen.
Defined.

(** ** The request body *)

Lemma synthesize_body_cases (this : OpenAITTSProvider) (txt : string)
    (options : option TTSOptions) :
  let base :=
    [ ("model", JString (model this));
      ("input", JString txt);
      ("voice", JString (or_default truthy_string (chain options opt_voice)
                                    (defaultVoice this)));
      ("response_format", JString "pcm");
      ("speed", JNumber (or_default truthy_number (chain options opt_speed)
                                    (speed this))) ] in
  match effectiveInstructions this options with
  | Some i =>
      if truthy_string i && (model this =? "gpt-4o-mini-tts")%string
      then synthesize_body this txt options
           = (base ++ [("instructions", JString i)])%list
      else synthesize_body this txt options = base
  | None => synthesize_body this txt options = base
  end.
Proof.
  unfold synthesize_body, effectiveInstructions.
  destruct (or_else truthy_string (chain options opt_instructions) (instructions this))
    as [i|]; cbn zeta; [|reflexivity].
  destruct (truthy_string i && (model this =? "gpt-4o-mini-tts")%string);
    reflexivity.
Qed.

Lemma truthy_string_nonempty (s : string) : truthy_string s = true <-> s <> "".
Proof.
  unfold truthy_string. destruct (String.eqb_spec s ""); simpl; split; congruence.
Qed.

Lemma body_instructions (this : OpenAITTSProvider) (txt : string)
    (options : option TTSOptions) :
  get_prop (synthesize_body this txt options) "instructions"
  = match effectiveInstructions this options with
    | Some i =>
        if truthy_string i && (model this =? "gpt-4o-mini-tts")%string
        then Some (JString i) else None
    | None => None
    end.
Proof.
  pose proof (synthesize_body_cases this txt options) as Hb. cbn zeta in Hb.
  destruct (effectiveInstructions this options) as [i|];
    [destruct (truthy_string i && (model this =? "gpt-4o-mini-tts")%string)|];
    rewrite Hb; reflexivity.
Qed.

Lemma synthesize_returns {RT : Runtime} (rev : revision) (this : OpenAITTSProvider)
    (txt : string) (options : option TTSOptions) (net : network) (r : Response) :
  net SPEECH_URL (synthesize_init rev this txt options) = Fulfilled r ->
  ok r = true ->
  exists res, outcome net (synthesize rev this txt options) = Normal res.
Proof.
  intros Hnet Hok. unfold outcome. rewrite (run_synthesize_ok _ _ _ _ _ _ Hnet Hok).
  eexists; reflexivity.
Qed.

(** C3. The body sent by [synthesize] has an [instructions] property exactly
    when the resolved instructions are a non-empty string and the model is
    ["gpt-4o-mini-tts"], and the property then holds them.  For any other
    model the property is absent whatever the instructions, and a call
    answered successfully still returns a result. *)
Theorem C3_instructions_gate {RT : Runtime} (rev : revision) (this : OpenAITTSProvider)
    (txt : string) (options : option TTSOptions) :
  (has_prop (synthesize_body this txt options) "instructions" = true
   <-> exists i : string,
         effectiveInstructions this options = Some i
         /\ i <> "" /\ model this = "gpt-4o-mini-tts")
  /\ (forall i : string,
        effectiveInstructions this options = Some i ->
        i <> "" -> model this = "gpt-4o-mini-tts" ->
        get_prop (synthesize_body this txt options) "instructions" = Some (JString i))
  /\ (model this <> "gpt-4o-mini-tts" ->
      get_prop (synthesize_body this txt options) "instructions" = None
      /\ forall (net : network) (r : Response),
           net SPEECH_URL (synthesize_init rev this txt options) = Fulfilled r ->
           ok r = true ->
           exists res, outcome net (synthesize rev this txt options) = Normal res).
Proof.
  unfold has_prop. rewrite body_instructions.
  split; [|split].
  - destruct (effectiveInstructions this options) as [i|].
    + destruct (truthy_string i) eqn:Ht;
        destruct (String.eqb_spec (model this) "gpt-4o-mini-tts") as [Hm|Hm];
        cbn [andb]; (split; [intros Hp | intros (j & [= <-] & Hj & Hmj)]);
        try discriminate; try contradiction; try reflexivity.
      * exists i. apply truthy_string_nonempty in Ht. auto.
      * apply truthy_string_nonempty in Hj. congruence.
    + split; [discriminate | intros (j & [=] & _)].
  - intros i -> Hi Hm. apply truthy_string_nonempty in Hi.
    rewrite Hi, Hm. reflexivity.
  - intros Hm. split.
    + destruct (effectiveInstructions this options) as [i|]; [|reflexivity].
      destruct (String.eqb_spec (model this) "gpt-4o-mini-tts"); [contradiction|].
      now rewrite andb_false_r.
    + intros net r. apply synthesize_returns.
Qed.

Lemma C3_instructions_gate_witness :
  get_prop (synthesize_body tts1_provider "Hello" no_options) "instructions" = None
  /\ exists res,
       outcome (always (ok_response []))
               (synthesize (RT := Sample.runtime) part_004 tts1_provider "Hello" no_options)
       = Normal res.
Proof.
  destruct (C3_instructions_gate (RT := Sample.runtime) part_004 tts1_provider "Hello"
              no_options) as (_ & _ & H).
  destruct H as [Hn Hr]; [vm_compute; discriminate|].
  split; [exact Hn|].
  apply (Hr (always (ok_response [])) (ok_response [])); reflexivity.
Defined.

(** C4, as stated, fails: a caller who supplies an empty voice and a speed
    of 0 gets a body holding the stored defaults, not the supplied values. *)
Lemma C4_counterexample :
  chain falsy_options opt_voice = Some ""
  /\ chain falsy_options opt_speed = Some (Number_of_Z 0)
  /\ get_prop (synthesize_body test_provider "Hello" falsy_options) "voice"
     = Some (JString "coral")
  /\ get_prop (synthesize_body test_provider "Hello" falsy_options) "voice"
     <> Some (JString "")
  /\ get_prop (synthesize_body test_provider "Hello" falsy_options) "speed"
     = Some (JNumber (Number_of_Z 1))
  /\ get_prop (synthesize_body test_provider "Hello" falsy_options) "speed"
     <> Some (JNumber (Number_of_Z 0)).
Proof. vm_compute. repeat split; congruence. Qed.

Lemma body_voice (this : OpenAITTSProvider) (txt : string) (options : option TTSOptions) :
  get_prop (synthesize_body this txt options) "voice"
  = Some (JString (or_default truthy_string (chain options opt_voice) (defaultVoice this))).
Proof.
  pose proof (synthesize_body_cases this txt options) as Hb. cbn zeta in Hb.
  destruct (effectiveInstructions this options) as [i|];
    [destruct (truthy_string i && (model this =? "gpt-4o-mini-tts")%string)|];
    rewrite Hb; reflexivity.
Qed.

Lemma body_speed (this : OpenAITTSProvider) (txt : string) (options : option TTSOptions) :
  get_prop (synthesize_body this txt options) "speed"
  = Some (JNumber (or_default truthy_number (chain options opt_speed) (speed this))).
Proof.
  pose proof (synthesize_body_cases this txt options) as Hb. cbn zeta in Hb.
  destruct (effectiveInstructions this options) as [i|];
    [destruct (truthy_string i && (model this =? "gpt-4o-mini-tts")%string)|];
    rewrite Hb; reflexivity.
Qed.

(** C4, amended. The body's [voice] and [speed] are the per-call option
    values when the caller supplies truthy ones (a non-empty voice, a speed
    that is neither 0 nor NaN), and the defaults stored in the provider at
    construction when the caller omits them. *)
Theorem C4_option_overrides (this : OpenAITTSProvider) (txt : string)
    (options : option TTSOptions) :
  (forall v : string,
     chain options opt_voice = Some v -> v <> "" ->
     get_prop (synthesize_body this txt options) "voice" = Some (JString v))
  /\ (chain options opt_voice = None ->
      get_prop (synthesize_body this txt options) "voice"
      = Some (JString (defaultVoice this)))
  /\ (forall s : number,
        chain options opt_speed = Some s -> truthy_number s = true ->
        get_prop (synthesize_body this txt options) "speed" = Some (JNumber s))
  /\ (chain options opt_speed = None ->
      get_prop (synthesize_body this txt options) "speed"
      = Some (JNumber (speed this))).
Proof.
  rewrite body_voice, body_speed. repeat split.
  - intros v -> Hv. apply truthy_string_nonempty in Hv. cbn. now rewrite Hv.
  - intros ->. reflexivity.
  - intros s -> Hs. cbn. now rewrite Hs.
  - intros ->. reflexivity.
Qed.

Lemma C4_option_overrides_witness :
  get_prop (synthesize_body test_provider "Hello" nova_fast) "voice"
  = Some (JString "nova")
  /\ get_prop (synthesize_body test_provider "Hello" nova_fast) "speed"
     = Some (JNumber (Number_of_Z 2))
  /\ get_prop (synthesize_body test_provider "Hello" no_options) "voice"
     = Some (JString (defaultVoice test_provider))
  /\ get_prop (synthesize_body test_provider "Hello" no_options) "speed"
     = Some (JNumber (speed test_provider)).
Proof.
  destruct (C4_option_overrides test_provider "Hello" nova_fast) as (Hv & _ & Hs & _).
  destruct (C4_option_overrides test_provider "Hello" no_options) as (_ & Hdv & _ & Hds).
  split; [apply Hv; [reflexivity | discriminate]|].
  split; [apply Hs; reflexivity|].
  split; [apply Hdv; reflexivity | apply Hds; reflexivity].
Defined.

(** C10. A falsy per-call option counts as absent: an empty voice resolves
    to the stored voice, a speed of 0 (or NaN) to the stored speed, and empty
    instructions to the stored instructions, so that the body and the whole
    request are those of a call without these options; stored instructions
    are still sent when the caller passes an empty string. *)
Theorem C10_falsy_options_absent {RT : Runtime} (rev : revision)
    (this : OpenAITTSProvider) (txt : string) (o : TTSOptions) :
  (opt_voice o = Some "" ->
   get_prop (synthesize_body this txt (Some o)) "voice"
   = Some (JString (defaultVoice this)))
  /\ (forall s : number,
        opt_speed o = Some s -> truthy_number s = false ->
        get_prop (synthesize_body this txt (Some o)) "speed"
        = Some (JNumber (speed this)))
  /\ (opt_speed o = Some (Number_of_Z 0) ->
      get_prop (synthesize_body this txt (Some o)) "speed"
      = Some (JNumber (speed this)))
  /\ (opt_instructions o = Some "" ->
      effectiveInstructions this (Some o) = instructions this)
  /\ (opt_instructions o = Some "" ->
      forall i : string,
        instructions this = Some i -> i <> "" -> model this = "gpt-4o-mini-tts" ->
        get_prop (synthesize_body this txt (Some o)) "instructions" = Some (JString i))
  /\ (opt_voice o = Some "" -> opt_speed o = Some (Number_of_Z 0) ->
      opt_instructions o = Some "" ->
      synthesize_body this txt (Some o) = synthesize_body this txt None
      /\ synthesize rev this txt (Some o) = synthesize rev this txt None).
Proof.
  rewrite body_voice, body_speed.
  assert (Hi : opt_instructions o = Some "" ->
               effectiveInstructions this (Some o) = instructions this).
  { intros H. unfold effectiveInstructions. cbn. rewrite H. reflexivity. }
  repeat split.
  - intros H. cbn. rewrite H. reflexivity.
  - intros s H Hs. cbn. rewrite H. cbn. now rewrite Hs.
  - intros H. cbn. rewrite H. reflexivity.
  - exact Hi.
  - intros H i Hs Hne Hm. rewrite body_instructions, (Hi H), Hs.
    apply truthy_string_nonempty in Hne. rewrite Hne, Hm. reflexivity.
  - unfold synthesize_body, effectiveInstructions. cbn. rewrite H, H0, H1. reflexivity.
  - unfold synthesize, synthesize_init, synthesize_body, effectiveInstructions. cbn.
    rewrite H, H0, H1. reflexivity.
Qed.

Lemma C10_falsy_options_absent_witness :
  get_prop (synthesize_body styled_provider "Hello" falsy_options) "voice"
  = Some (JString (defaultVoice styled_provider))
  /\ get_prop (synthesize_body styled_provider "Hello" falsy_options) "speed"
     = Some (JNumber (speed styled_provider))
  /\ get_prop (synthesize_body styled_provider "Hello" falsy_options) "instructions"
     = Some (JString "Speak cheerfully")
  /\ synthesize_body styled_provider "Hello" falsy_options
     = synthesize_body styled_provider "Hello" None.
Proof.
  destruct (C10_falsy_options_absent (RT := Sample.runtime) part_004 styled_provider "Hello"
              (mkOptions (Some "") (Some (Number_of_Z 0)) (Some "")))
    as (Hv & _ & Hs & _ & Hi & Hall).
  split; [apply Hv; reflexivity|].
  split; [apply Hs; reflexivity|].
  split; [apply Hi; [reflexivity | reflexivity | discriminate | reflexivity]|].
  apply Hall; reflexivity.
Defined.

(** ** Failed responses *)

(** C5. In both revisions, when the speech request is answered with a
    response that is not [ok], [synthesize] throws
    [Error("OpenAI TTS failed: <status> - <text>")]: the message holds the
    status code in decimal right after ["OpenAI TTS failed: "] and the text
    of the response; the run reads the text and never the payload, so
    nothing is decoded.  With status 401 the message starts with
    ["OpenAI TTS failed: 401"]. *)
Theorem C5_failed_response {RT : Runtime} (rev : revision) (this : OpenAITTSProvider)
    (txt : string) (options : option TTSOptions) (net : network) (r : Response) :
  net SPEECH_URL (synthesize_init rev this txt options) = Fulfilled r ->
  ok r = false ->
  exists e : JsError,
    outcome net (synthesize rev this txt options) = Thrown e
    /\ err_message e = "OpenAI TTS failed: " ++ N_toString (status r) ++ " - " ++ text r
    /\ contains (err_message e) ("OpenAI TTS failed: " ++ N_toString (status r))
    /\ contains (err_message e) (text r)
    /\ ~ In EvArrayBuffer (trace net (synthesize rev this txt options))
    /\ (status r = 401%N -> prefix "OpenAI TTS failed: 401" (err_message e) = true).
Proof.
  intros Hnet Hok. unfold outcome, trace.
  rewrite (run_synthesize_not_ok _ _ _ _ _ _ Hnet Hok). cbn [fst snd].
  eexists. split; [reflexivity|]. cbn [Error err_message].
  split; [reflexivity|]. split; [|split; [|split]].
  - rewrite <- (append_assoc "OpenAI TTS failed: "). apply contains_prefix.
  - rewrite <- !append_assoc. apply contains_suffix.
  - cbn. intros [H|[H|[]]]; discriminate.
  - intros ->. reflexivity.
Qed.

Lemma C5_failed_response_witness :
  exists e : JsError,
    outcome (always unauthorized)
            (synthesize (RT := Sample.runtime) part_004 test_provider "Hello" no_options)
    = Thrown e
    /\ err_message e = "OpenAI TTS failed: 401 - Unauthorized"
    /\ ~ In EvArrayBuffer
         (trace (always unauthorized)
                (synthesize (RT := Sample.runtime) part_004 test_provider "Hello" no_options)).
Proof.
  destruct (C5_failed_response (RT := Sample.runtime) part_004 test_provider "Hello"
              no_options (always unauthorized) unauthorized eq_refl eq_refl)
    as (e & He & Hm & _ & _ & Ht & _).
  exists e. split; [exact He|]. split; [exact Hm | exact Ht].
Defined.

(** ** Health check *)

Lemma run_healthCheck (this : OpenAITTSProvider) (net : network) :
  run net (healthCheck this)
  = (Normal match net MODELS_URL (healthCheck_init this) with
            | Fulfilled r => ok r
            | Rejected _ => false
            end,
     [EvFetch MODELS_URL (healthCheck_init this)]).
Proof.
  unfold run, healthCheck, await_fetch. cbn [bind try_catch run_reads].
  destruct (net MODELS_URL (healthCheck_init this)); reflexivity.
Qed.

(** C6. However the models request settles (a response with a success
    status, a response with a failure status, or a rejection such as a
    network error or a timeout), [healthCheck] completes normally with a
    boolean; the boolean is [true] exactly when the request was answered by
    a response that is [ok], and [false] on a response that is not and on
    every rejection. *)
Theorem C6_healthCheck_total (this : OpenAITTSProvider) (net : network) :
  exists b : bool,
    outcome net (healthCheck this) = Normal b
    /\ (b = true <->
        exists r : Response,
          net MODELS_URL (healthCheck_init this) = Fulfilled r /\ ok r = true)
    /\ (forall r : Response,
          net MODELS_URL (healthCheck_init this) = Fulfilled r -> b = ok r)
    /\ (forall e : JsError,
          net MODELS_URL (healthCheck_init this) = Rejected e -> b = false).
Proof.
  unfold outcome. rewrite run_healthCheck. cbn [fst]. eexists. split; [reflexivity|].
  destruct (net MODELS_URL (healthCheck_init this)) as [r|e].
  - split; [split|split].
    + intros H. exists r. auto.
    + intros (r' & [= <-] & H). exact H.
    + intros r' [= <-]. reflexivity.
    + intros e [=].
  - split; [split|split].
    + discriminate.
    + intros (r' & [=] & _).
    + intros r [=].
    + reflexivity.
Qed.

Lemma C6_healthCheck_total_witness :
  outcome unreachable (healthCheck test_provider) = Normal false
  /\ outcome (always unauthorized) (healthCheck test_provider)
     = Normal false
  /\ outcome (always (ok_response [])) (healthCheck test_provider)
     = Normal true.
Proof.
  split; [|split].
  - destruct (C6_healthCheck_total test_provider unreachable)
      as (b & Hb & _ & _ & Hrej).
    rewrite Hb. f_equal. apply (Hrej timeout_error). reflexivity.
  - destruct (C6_healthCheck_total test_provider (always unauthorized))
      as (b & Hb & _ & Hres & _).
    rewrite Hb. f_equal. apply (Hres unauthorized). reflexivity.
  - destruct (C6_healthCheck_total test_provider
                (always (ok_response [])))
      as (b & Hb & _ & Hres & _).
    rewrite Hb. f_equal. apply (Hres (ok_response [])). reflexivity.
Defined.

(** ** Initialisation *)

Lemma init_thrown {RT : Runtime} (rev : revision) (env : option string) (ctx : Host)
    (e : JsError) :
  validateConfig (constructor env (getConfig ctx)) = Thrown e ->
  fst (init rev env ctx)
  = log log_error ctx ("Failed to register OpenAI TTS: " ++ Error_toString e).
Proof. intros H. unfold init. cbn zeta. rewrite H. reflexivity. Qed.

Lemma no_credential_thrown {RT : Runtime} (env : option string) (config : OpenAITTSConfig) :
  truthy_opt truthy_string (cfg_apiKey config) = false ->
  truthy_opt truthy_string env = false ->
  validateConfig (constructor env config)
  = Thrown (Error "OPENAI_API_KEY required for OpenAI TTS").
Proof.
  intros Hc He. unfold validateConfig.
  assert (Hk : truthy_string (apiKey (constructor env config)) = false).
  { cbn [constructor apiKey]. unfold or_else, or_default.
    destruct (cfg_apiKey config) as [k|]; cbn in Hc; [rewrite Hc|];
      (destruct env as [v|]; cbn in He; [rewrite He|]); reflexivity. }
  rewrite Hk. reflexivity.
Qed.

(** C7. In both revisions, when validation of the configured provider
    throws, [init] completes without registering anything and with exactly
    one more log entry, an error whose text is
    ["Failed to register OpenAI TTS: "] followed by the thrown error.  When
    neither the configuration nor the environment gives a non-empty key,
    validation does throw, and the logged error contains ["required"]. *)
Theorem C7_init_fails_closed {RT : Runtime} (rev : revision) (env : option string)
    (ctx : Host) :
  (forall e : JsError,
     validateConfig (constructor env (getConfig ctx)) = Thrown e ->
     registered (fst (init rev env ctx)) = registered ctx
     /\ logged (fst (init rev env ctx))
        = (logged ctx
           ++ [(log_error,
                 ("Failed to register OpenAI TTS: " ++ Error_toString e)%string)])%list)
  /\ (truthy_opt truthy_string (cfg_apiKey (getConfig ctx)) = false ->
      truthy_opt truthy_string env = false ->
      exists msg : string,
        registered (fst (init rev env ctx)) = registered ctx
        /\ logged (fst (init rev env ctx)) = (logged ctx ++ [(log_error, msg)])%list
        /\ contains msg "required").
Proof.
  split.
  - intros e He. rewrite (init_thrown rev env ctx e He). split; reflexivity.
  - intros Hc Henv.
    rewrite (init_thrown rev env ctx _ (no_credential_thrown env _ Hc Henv)).
    eexists. split; [reflexivity|]. split; [reflexivity|].
    apply str_includes_contains. vm_compute. reflexivity.
Qed.

Lemma C7_init_fails_closed_witness :
  exists msg : string,
    registered (fst (init (RT := Sample.runtime) part_004 None (host_of empty_config))) = []
    /\ logged (fst (init (RT := Sample.runtime) part_004 None (host_of empty_config)))
       = [(log_error, msg)]
    /\ contains msg "required".
Proof.
  destruct (C7_init_fails_closed (RT := Sample.runtime) part_004 None (host_of empty_config))
    as [_ H].
  apply H; reflexivity.
Defined.

Example init_registers_test_config :
  let ctx := fst (init (RT := Sample.runtime) part_004 None (host_of test_config)) in
  registered ctx = [test_provider]
  /\ logged ctx
     = [(log_info, "OpenAI TTS provider registered (model: gpt-4o-mini-tts, voice: coral)")].
Proof. vm_compute. split; reflexivity. Qed.

(** [shutdown] forgets the provider, and a second call changes nothing
    more: nothing is unregistered twice. *)
Lemma shutdown_twice (rev : revision) (ctx : Host) (st : PluginState) :
  let '(ctx1, st1) := shutdown rev ctx st in
  provider st1 = None /\ shutdown rev ctx1 st1 = (ctx1, st1).
Proof.
  destruct rev; cbn; [split; reflexivity|].
  destruct (ctx_set st), (provider st); split; reflexivity.
Qed.

(** ** The outbound call of [synthesize] *)

(** In either revision a run of [synthesize] performs exactly one [fetch]:
    a POST to the speech endpoint whose body is the serialised request and
    whose headers carry the bearer credential. *)
Lemma synthesize_request {RT : Runtime} (rev : revision) (this : OpenAITTSProvider)
    (txt : string) (options : option TTSOptions) (net : network) :
  exists init : RequestInit,
    fetches (trace net (synthesize rev this txt options)) = [EvFetch SPEECH_URL init]
    /\ SPEECH_URL = "https://api.openai.com/v1/audio/speech"
    /\ method init = "POST"
    /\ body init = Some (JSON_stringify (synthesize_body this txt options))
    /\ In ("Authorization", "Bearer " ++ apiKey this) (headers init)
    /\ signal init = synthesize_signal rev.
Proof.
  exists (synthesize_init rev this txt options).
  split; [apply synthesize_fetches|]. cbn. repeat split. left; reflexivity.
Qed.

(** In [part_004] the call carries [AbortSignal.timeout(30000)]. *)
Lemma part_004_timeout {RT : Runtime} (this : OpenAITTSProvider) (txt : string)
    (options : option TTSOptions) (net : network) :
  exists init : RequestInit,
    fetches (trace net (synthesize part_004 this txt options)) = [EvFetch SPEECH_URL init]
    /\ method init = "POST"
    /\ body init = Some (JSON_stringify (synthesize_body this txt options))
    /\ In ("Authorization", "Bearer " ++ apiKey this) (headers init)
    /\ signal init = Some 30000%N.
Proof.
  destruct (synthesize_request part_004 this txt options net)
    as (init & Hf & _ & Hm & Hb & Hh & Hs).
  exists init. auto.
Qed.

(** C8. In [src/index.ts] the one call issued by [synthesize] is the POST
    the claim describes (endpoint, serialised body, bearer header) but
    carries no [signal]: no timeout is imposed on it, while [healthCheck] in
    the same file passes [AbortSignal.timeout(5000)]. *)
Theorem C8_index_ts_without_timeout {RT : Runtime} (this : OpenAITTSProvider)
    (txt : string) (options : option TTSOptions) (net : network) :
  exists init : RequestInit,
    fetches (trace net (synthesize index_ts this txt options)) = [EvFetch SPEECH_URL init]
    /\ method init = "POST"
    /\ body init = Some (JSON_stringify (synthesize_body this txt options))
    /\ In ("Authorization", "Bearer " ++ apiKey this) (headers init)
    /\ signal init = None
    /\ signal (healthCheck_init this) = Some 5000%N.
Proof.
  destruct (synthesize_request index_ts this txt options net)
    as (init & Hf & _ & Hm & Hb & Hh & Hs).
  exists init. repeat split; auto.
Qed.

Example index_ts_hello_world :
  trace (always (ok_response (zero_bytes 4)))
        (synthesize (RT := Sample.runtime) index_ts test_provider "Hello world" no_options)
  = [ EvFetch "https://api.openai.com/v1/audio/speech"
        {| method := "POST";
           headers := [ ("Authorization", "Bearer sk-test-key");
                        ("Content-Type", "application/json") ];
           body := body (synthesize_init (RT := Sample.runtime) index_ts test_provider
                           "Hello world" no_options);
           signal := None |};
      EvArrayBuffer ].
Proof. vm_compute. reflexivity. Qed.

(** ** Validation of the speed *)

(** C2, as stated, fails twice.  A configured speed of 0 lies outside the
    interval, yet the constructor replaces it by the default 1.0 and
    validation succeeds.  And with a speed of 5 but no key, validation
    fails on the key, with a message that does not mention the speed. *)
Lemma C2_counterexample :
  outside_speed_interval (Number_of_Z 0)
  /\ validateConfig (RT := Sample.runtime)
       (constructor None (config_with_speed (Some "sk-test-key") (Number_of_Z 0)))
     = Normal tt
  /\ outside_speed_interval (Number_of_Z 5)
  /\ validateConfig (RT := Sample.runtime)
       (constructor None (config_with_speed None (Number_of_Z 5)))
     = Thrown (Error "OPENAI_API_KEY required for OpenAI TTS")
  /\ ~ contains "OPENAI_API_KEY required for OpenAI TTS"
         (Number_toString (Runtime := Sample.runtime) (Number_of_Z 5)).
Proof.
  split; [left; reflexivity|].
  split; [vm_compute; reflexivity|].
  split; [right; reflexivity|].
  split; [vm_compute; reflexivity|].
  intros H. apply str_includes_contains in H. vm_compute in H. discriminate.
Qed.

Lemma constructor_speed (env : option string) (config : OpenAITTSConfig) (v : number) :
  cfg_speed config = Some v -> truthy_number v = true ->
  speed (constructor env config) = v.
Proof. intros Hs Ht. cbn [constructor speed]. rewrite Hs. cbn. now rewrite Ht. Qed.

Lemma truthy_not_nan (v : number) : truthy_number v = true -> v <> S754_nan.
Proof. intros H ->. discriminate. Qed.

(** C2, amended. Take a configuration whose key (or the environment's)
    is non-empty and whose voice is in the catalogue.  For every configured
    speed other than 0 and NaN whose value lies outside [0.25, 4.0] (the
    infinities included), [validateConfig] throws an error whose message
    ends with that value.  For every configured speed inside the interval,
    the bounds 0.25 and 4.0 included, and a valid model, it completes
    normally. *)
Theorem C2_speed_validation {RT : Runtime} (env : option string)
    (config : OpenAITTSConfig) (v : number) :
  cfg_speed config = Some v ->
  valid_number v = true ->
  truthy_number v = true ->
  truthy_string (apiKey (constructor env config)) = true ->
  includes validVoices (defaultVoice (constructor env config)) = true ->
  (outside_speed_interval v ->
   exists e : JsError,
     validateConfig (constructor env config) = Thrown e
     /\ err_message e
        = "Speed must be between 0.25 and 4.0, got: " ++ Number_toString v
     /\ contains (err_message e) (Number_toString v))
  /\ (inside_speed_interval v ->
      includes validModels (model (constructor env config)) = true ->
      validateConfig (constructor env config) = Normal tt)
  /\ (Qvalue SPEED_MIN == 1 # 4)%Q /\ inside_speed_interval SPEED_MIN
  /\ (Qvalue SPEED_MAX == 4)%Q /\ inside_speed_interval SPEED_MAX.
Proof.
  intros Hs Hvalid Ht Hk Hv. unfold validateConfig.
  rewrite Hk, Hv, (constructor_speed env config v Hs Ht). cbn [negb].
  fold (speed_out_of_range v).
  split; [|split].
  - intros Hout.
    apply (speed_out_of_range_exact v Hvalid (truthy_not_nan v Ht)) in Hout.
    rewrite Hout. eexists. split; [reflexivity|].
    cbn [Error err_message]. split; [reflexivity | apply contains_suffix].
  - intros Hin Hm. rewrite (speed_in_range_exact v Hvalid Hin), Hm. reflexivity.
  - split; [apply Qvalue_SPEED_MIN|]. split.
    + rewrite SPEED_MIN_eq. cbn [inside_speed_interval Qvalue].
      split; [vm_compute; discriminate | vm_compute; discriminate].
    + split; [apply Qvalue_SPEED_MAX|]. rewrite SPEED_MAX_eq.
      cbn [inside_speed_interval Qvalue].
      split; [vm_compute; discriminate | vm_compute; discriminate].
Qed.

Lemma C2_speed_validation_witness :
  (exists e : JsError,
     validateConfig (RT := Sample.runtime)
       (constructor None (config_with_speed (Some "sk-test-key") (Number_of_Z 5)))
     = Thrown e
     /\ err_message e = "Speed must be between 0.25 and 4.0, got: 5")
  /\ validateConfig (RT := Sample.runtime)
       (constructor None (config_with_speed (Some "sk-test-key") SPEED_MAX))
     = Normal tt
  /\ validateConfig (RT := Sample.runtime)
       (constructor None (config_with_speed (Some "sk-test-key") SPEED_MIN))
     = Normal tt.
Proof.
  split; [|split].
  - destruct (C2_speed_validation (RT := Sample.runtime) None
                (config_with_speed (Some "sk-test-key") (Number_of_Z 5)) (Number_of_Z 5)
                eq_refl eq_refl eq_refl eq_refl eq_refl) as [H _].
    destruct H as (e & He & Hm & _); [right; reflexivity|].
    exists e. split; [exact He | exact Hm].
  - destruct (C2_speed_validation (RT := Sample.runtime) None
                (config_with_speed (Some "sk-test-key") SPEED_MAX) SPEED_MAX
                eq_refl eq_refl eq_refl eq_refl eq_refl) as (_ & H & _ & _ & _ & Hin).
    apply H; [exact Hin | reflexivity].
  - destruct (C2_speed_validation (RT := Sample.runtime) None
                (config_with_speed (Some "sk-test-key") SPEED_MIN) SPEED_MIN
                eq_refl eq_refl eq_refl eq_refl eq_refl) as (_ & H & _ & Hin & _).
    apply H; [exact Hin | reflexivity].
Defined.

(** ** The closed form [round(n / 48)] *)

Lemma zero_bytes_length (n : N) : Buffer_length (zero_bytes n) = Number_of_N n.
Proof.
  unfold Buffer_length, zero_bytes. now rewrite repeat_length, N2Nat.id.
Qed.

Lemma duration_24024 : duration_of_length (Number_of_N 24024) = Number_of_Z 500.
Proof. vm_compute. reflexivity. Qed.

(** C9, as stated, fails: for a payload of 24024 bytes [round(n / 48)] is
    [round(500.5) = 501], but the two roundings of [(n / 2 / 24000) * 1000]
    give 500.49999999999994 and [synthesize] returns 500. *)
Lemma C9_counterexample :
  (exists res : TTSSynthesisResult,
     outcome (always (ok_response (zero_bytes 24024)))
             (synthesize (RT := Sample.runtime) part_004 test_provider "Hello" no_options)
     = Normal res
     /\ durationMs res = Number_of_Z 500)
  /\ round_n_over_48 24024 = Number_of_Z 501
  /\ exact_round_n_over_48 24024 = 501
  /\ Number_of_Z 500 <> round_n_over_48 24024.
Proof.
  split.
  - unfold outcome.
    rewrite (run_synthesize_ok (RT := Sample.runtime) part_004 test_provider "Hello"
               no_options _ (ok_response (zero_bytes 24024)) eq_refl eq_refl).
    eexists. split; [reflexivity|]. cbn [durationMs arrayBuffer ok_response].
    rewrite zero_bytes_length. apply duration_24024.
  - split; [vm_compute; reflexivity|].
    split; [reflexivity|].
    vm_compute. discriminate.
Qed.

(** C9, amended. Decoding a successful response is total over every payload
    length [n], zero and odd lengths included: [synthesize] returns a result
    whose [durationMs] is [Math.round((n / 2 / 24000) * 1000)] in double
    arithmetic.  An empty payload gives 0.  For payloads below 2^32 bytes
    this is [n / 48] rounded to the nearest integer, and the value of
    [Math.round(n / 48)], whenever [n / 48] is not halfway between two
    integers ([n mod 48 <> 24]); at such a tie it is the rounded-up value
    or one less. *)
Theorem C9_decoding_total {RT : Runtime} (rev : revision) (this : OpenAITTSProvider)
    (txt : string) (options : option TTSOptions) (net : network) (r : Response) :
  net SPEECH_URL (synthesize_init rev this txt options) = Fulfilled r ->
  ok r = true ->
  exists res : TTSSynthesisResult,
    outcome net (synthesize rev this txt options) = Normal res
    /\ durationMs res = spec_durationMs (N.of_nat (List.length (arrayBuffer r)))
    /\ (arrayBuffer r = [] -> durationMs res = Number_of_Z 0)
    /\ ((N.of_nat (List.length (arrayBuffer r)) < 2 ^ 32)%N ->
        (N.of_nat (List.length (arrayBuffer r)) mod 48 <> 24)%N ->
        durationMs res
        = Number_of_Z (exact_round_n_over_48 (N.of_nat (List.length (arrayBuffer r))))
        /\ durationMs res = round_n_over_48 (N.of_nat (List.length (arrayBuffer r))))
    /\ ((N.of_nat (List.length (arrayBuffer r)) < 2 ^ 32)%N ->
        (N.of_nat (List.length (arrayBuffer r)) mod 48 = 24)%N ->
        durationMs res
        = Number_of_Z (exact_round_n_over_48 (N.of_nat (List.length (arrayBuffer r))))
        \/ durationMs res
           = Number_of_Z
               (exact_round_n_over_48 (N.of_nat (List.length (arrayBuffer r))) - 1)).
Proof.
  intros Hnet Hok. unfold outcome.
  rewrite (run_synthesize_ok _ _ _ _ _ _ Hnet Hok). cbn [fst].
  eexists. split; [reflexivity|]. cbn [durationMs]. unfold Buffer_length, Buffer_from.
  split; [apply duration_is_spec|]. split; [|split].
  - intros ->. apply duration_zero.
  - intros Hlt Hne. rewrite (round_n_over_48_exact _ Hlt Hne).
    split; apply duration_closed_form; assumption.
  - apply duration_at_tie.
Qed.

Lemma C9_decoding_total_witness :
  exists res : TTSSynthesisResult,
    outcome (always (ok_response (zero_bytes 25)))
            (synthesize (RT := Sample.runtime) index_ts test_provider "Hello" no_options)
    = Normal res
    /\ durationMs res = Number_of_Z 1.
Proof.
  destruct (C9_decoding_total (RT := Sample.runtime) index_ts test_provider "Hello"
              no_options (always (ok_response (zero_bytes 25)))
              (ok_response (zero_bytes 25)) eq_refl eq_refl)
    as (res & Hres & _ & _ & Hround & _).
  exists res. split; [exact Hres|].
  apply Hround; [reflexivity | discriminate].
Defined.

(* ================================================================== *)
(** * Further properties of the provider and the plugin *)
(* ================================================================== *)

(** ** Validation *)

Lemma includes_In (l : list string) (x : string) : includes l x = true <-> In x l.
Proof.
  induction l as [|y l IH]; cbn [includes In].
  - split; [discriminate | contradiction].
  - rewrite orb_true_iff, IH. destruct (String.eqb_spec y x); split; intuition congruence.
Qed.

Lemma includes_not_In (l : list string) (x : string) : includes l x = false <-> ~ In x l.
Proof.
  rewrite <- includes_In. destruct (includes l x); split; congruence.
Qed.

Lemma constructor_speed_truthy (env : option string) (config : OpenAITTSConfig) :
  truthy_number (speed (constructor env config)) = true.
Proof.
  cbn [constructor speed]. unfold or_default.
  destruct (cfg_speed config) as [v|]; [|reflexivity].
  destruct (truthy_number v) eqn:Hv; [exact Hv | reflexivity].
Qed.

Lemma constructor_speed_valid (env : option string) (config : OpenAITTSConfig) :
  (forall v, cfg_speed config = Some v -> valid_number v = true) ->
  valid_number (speed (constructor env config)) = true.
Proof.
  intros H. cbn [constructor speed]. unfold or_default.
  destruct (cfg_speed config) as [v|]; [|reflexivity].
  destruct (truthy_number v); [apply H; reflexivity | reflexivity].
Qed.

Lemma speed_in_range_iff (x : number) :
  valid_number x = true -> truthy_number x = true ->
  (speed_out_of_range x = false <-> inside_speed_interval x).
Proof.
  intros Hv Ht. split; [|apply speed_in_range_exact; exact Hv].
  intros Hr. destruct x as [s|s| |s m e]; try discriminate.
  - destruct s; discriminate.
  - cbn [inside_speed_interval].
    destruct (Qlt_le_dec (Qvalue (S754_finite s m e)) (1 # 4)) as [Hlo|Hlo].
    + assert (Ho : speed_out_of_range (S754_finite s m e) = true).
      { apply speed_out_of_range_exact; [exact Hv | discriminate | left; exact Hlo]. }
      congruence.
    + destruct (Qlt_le_dec 4 (Qvalue (S754_finite s m e))) as [Hhi|Hhi].
      * assert (Ho : speed_out_of_range (S754_finite s m e) = true).
        { apply speed_out_of_range_exact; [exact Hv | discriminate | right; exact Hhi]. }
        congruence.
      * split; assumption.
Qed.

Lemma validateConfig_Normal {RT : Runtime} (this : OpenAITTSProvider) :
  validateConfig this = Normal tt
  <-> truthy_string (apiKey this) = true
      /\ includes validVoices (defaultVoice this) = true
      /\ speed_out_of_range (speed this) = false
      /\ includes validModels (model this) = true.
Proof.
  unfold validateConfig. fold (speed_out_of_range (speed this)).
  destruct (truthy_string (apiKey this)), (includes validVoices (defaultVoice this)),
    (speed_out_of_range (speed this)), (includes validModels (model this));
    cbn [negb]; split; intros H; try discriminate; try reflexivity;
    try (destruct H as (? & ? & ? & ?); discriminate); repeat split.
Qed.

(** X1. A configuration is accepted exactly when the resolved key is not
    empty, the resolved voice is one of the catalogue ids, the resolved
    speed lies in [0.25, 4.0] and the resolved model is one of the three
    models; an accepted provider therefore has all four. *)
Theorem X1_accepted_configurations {RT : Runtime} (env : option string)
    (config : OpenAITTSConfig) :
  (forall v, cfg_speed config = Some v -> valid_number v = true) ->
  (validateConfig (constructor env config) = Normal tt
   <-> apiKey (constructor env config) <> ""
       /\ In (defaultVoice (constructor env config)) validVoices
       /\ inside_speed_interval (speed (constructor env config))
       /\ In (model (constructor env config)) validModels).
Proof.
  intros Hvalid.
  rewrite validateConfig_Normal, truthy_string_nonempty, !includes_In.
  rewrite (speed_in_range_iff _ (constructor_speed_valid env config Hvalid)
             (constructor_speed_truthy env config)).
  reflexivity.
Qed.

Lemma X1_accepted_configurations_witness :
  validateConfig (RT := Sample.runtime) (constructor None (key_only "sk-test-key"))
  = Normal tt.
Proof.
  apply (X1_accepted_configurations (RT := Sample.runtime) None (key_only "sk-test-key")).
  - intros v [=].
  - split; [discriminate|]. split; [vm_compute; tauto|].
    split; [|vm_compute; tauto].
    cbn. split; [vm_compute; discriminate | vm_compute; discriminate].
Defined.

(** X2. Once the key is present, a default voice outside the catalogue
    makes [validateConfig] throw, whatever the speed and the model are; the
    message names the rejected voice and lists the thirteen catalogue ids. *)
Theorem X2_invalid_voice {RT : Runtime} (this : OpenAITTSProvider) :
  apiKey this <> "" ->
  ~ In (defaultVoice this) validVoices ->
  exists e : JsError,
    validateConfig this = Thrown e
    /\ err_message e
       = "Invalid voice: " ++ defaultVoice this
         ++ ". Valid: alloy, ash, ballad, coral, echo, fable, nova, onyx, sage, shimmer, verse, marin, cedar"
    /\ (forall v : string, In v validVoices -> contains (err_message e) v)
    /\ List.length validVoices = 13%nat.
Proof.
  intros Hk Hv. apply truthy_string_nonempty in Hk. apply includes_not_In in Hv.
  unfold validateConfig. rewrite Hk, Hv. cbn [negb].
  eexists. split; [reflexivity|]. cbn [Error err_message].
  split; [reflexivity|]. split; [|reflexivity].
  intros v Hin. apply contains_app_r, contains_app_r.
  apply str_includes_contains.
  cbn in Hin.
  repeat (destruct Hin as [<- | Hin]; [vm_compute; reflexivity|]).
  contradiction.
Qed.

Lemma X2_invalid_voice_witness :
  exists e : JsError,
    validateConfig (RT := Sample.runtime)
      (constructor None
         {| cfg_apiKey := Some "sk-test-key"; cfg_model := None;
            cfg_voice := Some "invalid-voice"; cfg_speed := None;
            cfg_instructions := None |})
    = Thrown e
    /\ contains (err_message e) "shimmer".
Proof.
  destruct (X2_invalid_voice (RT := Sample.runtime)
              (constructor None
                 {| cfg_apiKey := Some "sk-test-key"; cfg_model := None;
                    cfg_voice := Some "invalid-voice"; cfg_speed := None;
                    cfg_instructions := None |}))
    as (e & He & _ & Hall & _).
  - discriminate.
  - vm_compute. intuition discriminate.
  - exists e. split; [exact He|]. apply Hall. vm_compute. tauto.
Defined.

(** X3. When the key, the voice and the speed pass, a model outside the
    three supported ones makes [validateConfig] throw; the message names the
    rejected model and lists the supported ones. *)
Theorem X3_invalid_model {RT : Runtime} (this : OpenAITTSProvider) :
  apiKey this <> "" ->
  In (defaultVoice this) validVoices ->
  valid_number (speed this) = true ->
  inside_speed_interval (speed this) ->
  ~ In (model this) validModels ->
  exists e : JsError,
    validateConfig this = Thrown e
    /\ err_message e
       = "Invalid model: " ++ model this ++ ". Valid: gpt-4o-mini-tts, tts-1, tts-1-hd"
    /\ (forall m : string, In m validModels -> contains (err_message e) m).
Proof.
  intros Hk Hv Hvalid Hs Hm.
  apply truthy_string_nonempty in Hk. apply includes_In in Hv.
  apply includes_not_In in Hm.
  pose proof (speed_in_range_exact _ Hvalid Hs) as Hr. unfold speed_out_of_range in Hr.
  unfold validateConfig. rewrite Hk, Hv, Hr, Hm. cbn [negb].
  eexists. split; [reflexivity|]. cbn [Error err_message]. split; [reflexivity|].
  intros m Hin. apply contains_app_r, contains_app_r.
  apply str_includes_contains. cbn in Hin.
  repeat (destruct Hin as [<- | Hin]; [vm_compute; reflexivity|]).
  contradiction.
Qed.

Lemma X3_invalid_model_witness :
  exists e : JsError,
    validateConfig (RT := Sample.runtime)
      (constructor None
         {| cfg_apiKey := Some "sk-test-key"; cfg_model := Some "tts-2";
            cfg_voice := None; cfg_speed := None; cfg_instructions := None |})
    = Thrown e
    /\ err_message e = "Invalid model: tts-2. Valid: gpt-4o-mini-tts, tts-1, tts-1-hd".
Proof.
  destruct (X3_invalid_model (RT := Sample.runtime)
              (constructor None
                 {| cfg_apiKey := Some "sk-test-key"; cfg_model := Some "tts-2";
                    cfg_voice := None; cfg_speed := None; cfg_instructions := None |}))
    as (e & He & Hm & _).
  - discriminate.
  - vm_compute. tauto.
  - reflexivity.
  - cbn. split; vm_compute; discriminate.
  - vm_compute. intuition discriminate.
  - exists e. split; [exact He | exact Hm].
Defined.

(** ** The credential *)

Lemma constructor_apiKey (env : option string) (config : OpenAITTSConfig) :
  apiKey (constructor env config)
  = match cfg_apiKey config with
    | Some k => if truthy_string k then k
                else match env with
                     | Some v => if truthy_string v then v else ""
                     | None => ""
                     end
    | None => match env with
              | Some v => if truthy_string v then v else ""
              | None => ""
              end
    end.
Proof.
  cbn [constructor apiKey]. unfold or_else, or_default.
  destruct (cfg_apiKey config) as [k|]; [destruct (truthy_string k) eqn:Hk|];
    try (rewrite Hk); destruct env as [v|]; reflexivity.
Qed.

(** X4. A non-empty key in the configuration is the one used, whatever the
    environment holds; an absent or empty one falls back to the
    environment's.  The key so resolved is the bearer credential of the one
    request of [synthesize] and of the one request of [healthCheck]. *)
Theorem X4_credential_resolution {RT : Runtime} (rev : revision) (env : option string)
    (config : OpenAITTSConfig) (txt : string) (options : option TTSOptions)
    (net : network) :
  (forall k : string,
     cfg_apiKey config = Some k -> k <> "" -> apiKey (constructor env config) = k)
  /\ (forall v : string,
        truthy_opt truthy_string (cfg_apiKey config) = false ->
        env = Some v -> apiKey (constructor env config) = v)
  /\ (exists i : RequestInit,
        fetches (trace net (synthesize rev (constructor env config) txt options))
        = [EvFetch SPEECH_URL i]
        /\ In ("Authorization", "Bearer " ++ apiKey (constructor env config)) (headers i))
  /\ (exists i : RequestInit,
        fetches (trace net (healthCheck (constructor env config)))
        = [EvFetch MODELS_URL i]
        /\ In ("Authorization", "Bearer " ++ apiKey (constructor env config)) (headers i)).
Proof.
  rewrite constructor_apiKey. split; [|split; [|split]].
  - intros k -> Hk. apply truthy_string_nonempty in Hk. now rewrite Hk.
  - intros v Hc ->. destruct (cfg_apiKey config) as [k|]; cbn in Hc.
    + rewrite Hc. destruct (truthy_string v) eqn:Hv; [reflexivity|].
      unfold truthy_string in Hv. destruct (String.eqb_spec v ""); [auto | discriminate].
    + destruct (truthy_string v) eqn:Hv; [reflexivity|].
      unfold truthy_string in Hv. destruct (String.eqb_spec v ""); [auto | discriminate].
  - rewrite <- constructor_apiKey.
    exists (synthesize_init rev (constructor env config) txt options).
    split; [apply synthesize_fetches | left; reflexivity].
  - rewrite <- constructor_apiKey.
    exists (healthCheck_init (constructor env config)).
    unfold trace. rewrite run_healthCheck. split; [reflexivity | left; reflexivity].
Qed.

Lemma X4_credential_resolution_witness :
  apiKey (constructor (Some "sk-env")
            {| cfg_apiKey := Some "sk-config"; cfg_model := None; cfg_voice := None;
               cfg_speed := None; cfg_instructions := None |}) = "sk-config"
  /\ apiKey (constructor (Some "sk-env")
               {| cfg_apiKey := Some ""; cfg_model := None; cfg_voice := None;
                  cfg_speed := None; cfg_instructions := None |}) = "sk-env".
Proof.
  split.
  - destruct (X4_credential_resolution (RT := Sample.runtime) part_004 (Some "sk-env")
                {| cfg_apiKey := Some "sk-config"; cfg_model := None; cfg_voice := None;
                   cfg_speed := None; cfg_instructions := None |}
                "Hello" no_options unreachable) as (H & _).
    apply H; [reflexivity | discriminate].
  - destruct (X4_credential_resolution (RT := Sample.runtime) part_004 (Some "sk-env")
                {| cfg_apiKey := Some ""; cfg_model := None; cfg_voice := None;
                   cfg_speed := None; cfg_instructions := None |}
                "Hello" no_options unreachable) as (_ & H & _).
    apply H; reflexivity.
Defined.

(** ** What a constructed provider sends *)

Lemma constructor_voice_nonempty (env : option string) (config : OpenAITTSConfig) :
  truthy_string (defaultVoice (constructor env config)) = true.
Proof.
  cbn [constructor defaultVoice]. unfold or_default.
  destruct (cfg_voice config) as [v|]; [|reflexivity].
  destruct (truthy_string v) eqn:Hv; [exact Hv | reflexivity].
Qed.

Lemma constructor_model_nonempty (env : option string) (config : OpenAITTSConfig) :
  truthy_string (model (constructor env config)) = true.
Proof.
  cbn [constructor model]. unfold or_default.
  destruct (cfg_model config) as [v|]; [|reflexivity].
  destruct (truthy_string v) eqn:Hv; [exact Hv | reflexivity].
Qed.

Lemma or_default_truthy {A : Type} (truthy : A -> bool) (a : option A) (d : A) :
  truthy d = true -> truthy (or_default truthy a d) = true.
Proof.
  intros Hd. unfold or_default. destruct a as [x|]; [|exact Hd].
  destruct (truthy x) eqn:Hx; [exact Hx | exact Hd].
Qed.

Lemma body_model (this : OpenAITTSProvider) (txt : string) (options : option TTSOptions) :
  get_prop (synthesize_body this txt options) "model" = Some (JString (model this)).
Proof.
  pose proof (synthesize_body_cases this txt options) as Hb. cbn zeta in Hb.
  destruct (effectiveInstructions this options) as [i|];
    [destruct (truthy_string i && (model this =? "gpt-4o-mini-tts")%string)|];
    rewrite Hb; reflexivity.
Qed.

(** X5. Whatever the configuration and the per-call options, the body sent
    for a provider built by the constructor never holds an empty voice, an
    empty model, or a speed that is 0 or NaN. *)
Theorem X5_body_never_falsy (env : option string) (config : OpenAITTSConfig)
    (txt : string) (options : option TTSOptions) :
  exists (m v : string) (s : number),
    get_prop (synthesize_body (constructor env config) txt options) "model"
    = Some (JString m)
    /\ get_prop (synthesize_body (constructor env config) txt options) "voice"
       = Some (JString v)
    /\ get_prop (synthesize_body (constructor env config) txt options) "speed"
       = Some (JNumber s)
    /\ m <> "" /\ v <> "" /\ truthy_number s = true.
Proof.
  rewrite body_model, body_voice, body_speed.
  eexists _, _, _. repeat split.
  - apply truthy_string_nonempty, constructor_model_nonempty.
  - apply truthy_string_nonempty, or_default_truthy, constructor_voice_nonempty.
  - apply or_default_truthy, constructor_speed_truthy.
Qed.

(** X6. For a provider that passed validation, a call that overrides
    neither voice nor speed sends a voice of the catalogue, a supported model
    and a speed in [0.25, 4.0]. *)
Theorem X6_validated_request_in_range {RT : Runtime} (env : option string)
    (config : OpenAITTSConfig) (txt : string) (options : option TTSOptions) :
  (forall v, cfg_speed config = Some v -> valid_number v = true) ->
  validateConfig (constructor env config) = Normal tt ->
  chain options opt_voice = None ->
  chain options opt_speed = None ->
  exists (m v : string) (s : number),
    get_prop (synthesize_body (constructor env config) txt options) "model"
    = Some (JString m)
    /\ get_prop (synthesize_body (constructor env config) txt options) "voice"
       = Some (JString v)
    /\ get_prop (synthesize_body (constructor env config) txt options) "speed"
       = Some (JNumber s)
    /\ In m validModels /\ In v validVoices /\ inside_speed_interval s.
Proof.
  intros Hvalid Hok Hv Hs.
  rewrite validateConfig_Normal, !includes_In in Hok.
  destruct Hok as (_ & Hvoice & Hspeed & Hmodel).
  apply (speed_in_range_iff _ (constructor_speed_valid env config Hvalid)
           (constructor_speed_truthy env config)) in Hspeed.
  rewrite body_model, body_voice, body_speed, Hv, Hs.
  eexists _, _, _. repeat split; assumption.
Qed.

Lemma X6_validated_request_in_range_witness :
  exists (m v : string) (s : number),
    get_prop (synthesize_body test_provider "Hello" no_options) "model" = Some (JString m)
    /\ get_prop (synthesize_body test_provider "Hello" no_options) "voice"
       = Some (JString v)
    /\ get_prop (synthesize_body test_provider "Hello" no_options) "speed"
       = Some (JNumber s)
    /\ In m validModels /\ In v validVoices /\ inside_speed_interval s.
Proof.
  apply (X6_validated_request_in_range (RT := Sample.runtime) None test_config "Hello"
           no_options).
  - intros v [=].
  - reflexivity.
  - reflexivity.
  - reflexivity.
Defined.

(** ** What [synthesize] ignores and what it passes on *)

(** X7. The options [pitch], [format] and [sampleRate] have no effect: the
    call is the one made without them, the body asks for ["pcm"], and a
    successful call returns the payload unchanged, tagged [pcm_s16le] at
    24000 Hz, whatever format the caller asked for. *)
Theorem X7_format_options_ignored {RT : Runtime} (rev : revision)
    (this : OpenAITTSProvider) (txt : string) (o : TTSOptions)
    (net : network) (r : Response) :
  net SPEECH_URL (synthesize_init rev this txt (Some o)) = Fulfilled r ->
  ok r = true ->
  synthesize rev this txt (Some o)
  = synthesize rev this txt
      (Some (mkOptions (opt_voice o) (opt_speed o) (opt_instructions o)))
  /\ get_prop (synthesize_body this txt (Some o)) "response_format"
     = Some (JString "pcm")
  /\ exists res : TTSSynthesisResult,
       outcome net (synthesize rev this txt (Some o)) = Normal res
       /\ audio res = arrayBuffer r
       /\ format res = pcm_s16le
       /\ sampleRate res = Number_of_Z 24000.
Proof.
  intros Hnet Hok. split; [reflexivity|]. split.
  - pose proof (synthesize_body_cases this txt (Some o)) as Hb. cbn zeta in Hb.
    destruct (effectiveInstructions this (Some o)) as [i|];
      [destruct (truthy_string i && (model this =? "gpt-4o-mini-tts")%string)|];
      rewrite Hb; reflexivity.
  - unfold outcome. rewrite (run_synthesize_ok _ _ _ _ _ _ Hnet Hok).
    eexists. split; [reflexivity|]. repeat split.
Qed.

Lemma X7_format_options_ignored_witness :
  exists res : TTSSynthesisResult,
    outcome (always (ok_response (zero_bytes 4)))
            (synthesize (RT := Sample.runtime) part_004 test_provider "Hello"
               (Some {| opt_voice := None; opt_speed := None; opt_pitch := None;
                        opt_format := Some mp3; opt_sampleRate := Some (Number_of_Z 48000);
                        opt_instructions := None |}))
    = Normal res
    /\ audio res = zero_bytes 4
    /\ format res = pcm_s16le
    /\ sampleRate res = Number_of_Z 24000.
Proof.
  destruct (X7_format_options_ignored (RT := Sample.runtime) part_004 test_provider "Hello"
              {| opt_voice := None; opt_speed := None; opt_pitch := None;
                 opt_format := Some mp3; opt_sampleRate := Some (Number_of_Z 48000);
                 opt_instructions := None |}
              (always (ok_response (zero_bytes 4))) (ok_response (zero_bytes 4))
              eq_refl eq_refl) as (_ & _ & H).
  exact H.
Defined.

(** X8. When the speech request is rejected (a network failure, a timeout),
    [synthesize] throws that very error: it is neither caught nor wrapped,
    and no response is read. *)
Theorem X8_rejection_propagates {RT : Runtime} (rev : revision)
    (this : OpenAITTSProvider) (txt : string) (options : option TTSOptions)
    (net : network) (e : JsError) :
  net SPEECH_URL (synthesize_init rev this txt options) = Rejected e ->
  outcome net (synthesize rev this txt options) = Thrown e
  /\ trace net (synthesize rev this txt options)
     = [EvFetch SPEECH_URL (synthesize_init rev this txt options)].
Proof.
  intros Hnet. unfold outcome, trace.
  rewrite (run_synthesize_rejected _ _ _ _ _ _ Hnet). split; reflexivity.
Qed.

Lemma X8_rejection_propagates_witness :
  outcome unreachable
          (synthesize (RT := Sample.runtime) part_004 test_provider "Hello" no_options)
  = Thrown timeout_error.
Proof.
  apply (X8_rejection_propagates (RT := Sample.runtime) part_004 test_provider "Hello"
           no_options unreachable timeout_error eq_refl).
Defined.

(** ** The streaming variant *)

Lemma drain_streamSynthesize {RT : Runtime} (rev : revision) (this : OpenAITTSProvider)
    (txt : string) (options : option TTSOptions) (net : network) :
  drain net (streamSynthesize rev this txt options)
  = match run net (synthesize rev this txt options) with
    | (Normal res, tr) => ([audio res], Normal tt, tr)
    | (Thrown e, tr) => ([], Thrown e, tr)
    end.
Proof.
  unfold streamSynthesize. cbn [drain].
  destruct (run net (synthesize rev this txt options)) as [[res|e] tr]; [|reflexivity].
  now rewrite app_nil_r.
Qed.





(** ** The request of [healthCheck] *)

(** X11. Whatever the network answers, [healthCheck] performs exactly one
    operation: a GET of the models endpoint with the bearer credential, no
    body and a 5000 ms timeout.  It never reads the response's text or
    payload. *)
Theorem X11_healthCheck_request (this : OpenAITTSProvider) (net : network) :
  exists i : RequestInit,
    trace net (healthCheck this) = [EvFetch "https://api.openai.com/v1/models" i]
    /\ method i = "GET"
    /\ headers i = [("Authorization", "Bearer " ++ apiKey this)]
    /\ body i = None
    /\ signal i = Some 5000%N.
Proof.
  exists (healthCheck_init this). unfold trace. rewrite run_healthCheck.
  repeat split.
Qed.

(** ** [init] and [shutdown] *)

Lemma app_one_neq {A : Type} (l : list A) (x : A) : l <> (l ++ [x])%list.
Proof.
  intros H. apply (f_equal (@List.length A)) in H.
  rewrite length_app in H. cbn in H. lia.
Qed.

Lemma init_normal {RT : Runtime} (rev : revision) (env : option string) (ctx : Host) :
  validateConfig (constructor env (getConfig ctx)) = Normal tt ->
  init rev env ctx
  = (log log_info (registerTTSProvider ctx (constructor env (getConfig ctx)))
       (registered_line rev (getConfig ctx) (constructor env (getConfig ctx))),
     {| provider := Some (constructor env (getConfig ctx)); ctx_set := binds_ctx rev |}).
Proof. intros H. unfold init. cbn zeta. rewrite H. reflexivity. Qed.

(** X12. [init] registers the provider built from the host's configuration
    exactly when that provider passes validation, and then logs one line at
    info level and none at error level.  In both cases the module keeps the
    provider it built. *)
Theorem X12_init_registers_iff_valid {RT : Runtime} (rev : revision)
    (env : option string) (ctx : Host) :
  (registered (fst (init rev env ctx))
   = (registered ctx ++ [constructor env (getConfig ctx)])%list
   <-> validateConfig (constructor env (getConfig ctx)) = Normal tt)
  /\ (validateConfig (constructor env (getConfig ctx)) = Normal tt ->
      exists line : string,
        logged (fst (init rev env ctx)) = (logged ctx ++ [(log_info, line)])%list)
  /\ provider (snd (init rev env ctx)) = Some (constructor env (getConfig ctx)).
Proof.
  destruct (validateConfig (constructor env (getConfig ctx))) as [[]|e] eqn:Hv.
  - rewrite (init_normal rev env ctx Hv). cbn. split; [|split].
    + split; reflexivity.
    + intros _. eexists. reflexivity.
    + reflexivity.
  - rewrite (surjective_pairing (init rev env ctx)), (init_thrown rev env ctx e Hv).
    cbn [fst]. split; [|split].
    + split; [|discriminate]. cbn. intros H. exfalso. exact (app_one_neq _ _ H).
    + discriminate.
    + unfold init. cbn zeta. rewrite Hv. reflexivity.
Qed.

Lemma X12_init_registers_iff_valid_witness :
  registered (fst (init (RT := Sample.runtime) index_ts (Some "sk-env") (host_of empty_config)))
  = [constructor (Some "sk-env") empty_config].
Proof.
  destruct (X12_init_registers_iff_valid (RT := Sample.runtime) index_ts (Some "sk-env")
              (host_of empty_config)) as [H _].
  apply H. reflexivity.
Defined.

(** X13. After a successful registration [part_004] logs the model and the
    voice the provider really uses.  [src/index.ts] logs the same line when
    the configured model and voice are not empty strings; with an empty
    string configured it logs that empty string although the provider uses
    the default. *)
Theorem X13_registration_line {RT : Runtime} (env : option string) (ctx : Host) :
  validateConfig (constructor env (getConfig ctx)) = Normal tt ->
  logged (fst (init part_004 env ctx))
  = (logged ctx
     ++ [(log_info,
          ("OpenAI TTS provider registered (model: "
           ++ model (constructor env (getConfig ctx))
           ++ ", voice: " ++ defaultVoice (constructor env (getConfig ctx)) ++ ")")%string)])%list
  /\ (cfg_model (getConfig ctx) <> Some "" -> cfg_voice (getConfig ctx) <> Some "" ->
      logged (fst (init index_ts env ctx)) = logged (fst (init part_004 env ctx)))
  /\ (cfg_model (getConfig ctx) = Some "" -> cfg_voice (getConfig ctx) = None ->
      logged (fst (init index_ts env ctx))
      = (logged ctx
         ++ [(log_info, "OpenAI TTS provider registered (model: , voice: coral)")])%list
      /\ model (constructor env (getConfig ctx)) = "gpt-4o-mini-tts").
Proof.
  intros Hv. rewrite !(init_normal _ env ctx Hv). cbn [fst log logged registerTTSProvider].
  split; [reflexivity|]. split.
  - intros Hm Hvo. do 3 f_equal. cbn [registered_line constructor model defaultVoice].
    assert (Em : nullish (cfg_model (getConfig ctx)) DEFAULT_model
                 = or_default truthy_string (cfg_model (getConfig ctx)) DEFAULT_model).
    { destruct (cfg_model (getConfig ctx)) as [m|]; [|reflexivity]. cbn.
      destruct (truthy_string m) eqn:Ht; [reflexivity|].
      exfalso. apply Hm. f_equal. unfold truthy_string in Ht.
      destruct (String.eqb_spec m ""); [assumption | discriminate]. }
    assert (Ev : nullish (cfg_voice (getConfig ctx)) DEFAULT_voice
                 = or_default truthy_string (cfg_voice (getConfig ctx)) DEFAULT_voice).
    { destruct (cfg_voice (getConfig ctx)) as [m|]; [|reflexivity]. cbn.
      destruct (truthy_string m) eqn:Ht; [reflexivity|].
      exfalso. apply Hvo. f_equal. unfold truthy_string in Ht.
      destruct (String.eqb_spec m ""); [assumption | discriminate]. }
    rewrite Em, Ev. reflexivity.
  - intros Hm Hvo. cbn [registered_line constructor model]. rewrite Hm, Hvo.
    split; reflexivity.
Qed.

Lemma X13_registration_line_witness :
  logged (fst (init (RT := Sample.runtime) index_ts None
                 (host_of {| cfg_apiKey := Some "sk-test-key"; cfg_model := Some "";
                             cfg_voice := None; cfg_speed := None;
                             cfg_instructions := None |})))
  = [(log_info, "OpenAI TTS provider registered (model: , voice: coral)")].
Proof.
  destruct (X13_registration_line (RT := Sample.runtime) None
              (host_of {| cfg_apiKey := Some "sk-test-key"; cfg_model := Some "";
                          cfg_voice := None; cfg_speed := None;
                          cfg_instructions := None |}) eq_refl) as (_ & _ & H).
  destruct (H eq_refl eq_refl) as [Hl _]. exact Hl.
Defined.

(** X14. In [part_004], [shutdown] after [init] unregisters the extension
    ["tts"] once, whether or not that [init] had registered anything, and
    clears the module's provider and context; a second [shutdown], or a
    [shutdown] with nothing initialised, leaves the host untouched.  In
    [src/index.ts], [shutdown] never calls the host. *)
Theorem X14_shutdown_lifecycle {RT : Runtime} (env : option string) (ctx : Host) :
  let ctx1 := fst (init part_004 env ctx) in
  let st1 := snd (init part_004 env ctx) in
  let ctx2 := fst (shutdown part_004 ctx1 st1) in
  let st2 := snd (shutdown part_004 ctx1 st1) in
  unregistered ctx2 = (unregistered ctx ++ ["tts"])%list
  /\ registered ctx2 = registered ctx1
  /\ st2 = {| provider := None; ctx_set := false |}
  /\ shutdown part_004 ctx2 st2 = (ctx2, st2)
  /\ shutdown part_004 ctx {| provider := None; ctx_set := false |}
     = (ctx, {| provider := None; ctx_set := false |})
  /\ (forall st : PluginState, fst (shutdown index_ts ctx st) = ctx).
Proof.
  cbv zeta. unfold init. cbn zeta.
  destruct (validateConfig (constructor env (getConfig ctx))) as [[]|e];
    cbn; repeat split.
Qed.

(** X15. With a non-empty key, from the configuration or from the
    environment, and no model, voice or speed configured, [init] registers a
    provider with model ["gpt-4o-mini-tts"], voice ["coral"] and speed 1, and
    logs the registration with these names. *)
Theorem X15_defaults_register {RT : Runtime} (rev : revision) (env : option string)
    (ctx : Host) :
  cfg_model (getConfig ctx) = None ->
  cfg_voice (getConfig ctx) = None ->
  cfg_speed (getConfig ctx) = None ->
  apiKey (constructor env (getConfig ctx)) <> "" ->
  registered (fst (init rev env ctx))
  = (registered ctx
     ++ [{| apiKey := apiKey (constructor env (getConfig ctx));
            model := "gpt-4o-mini-tts";
            defaultVoice := "coral";
            speed := Number_of_Z 1;
            instructions := cfg_instructions (getConfig ctx) |}])%list
  /\ logged (fst (init rev env ctx))
     = (logged ctx
        ++ [(log_info,
             "OpenAI TTS provider registered (model: gpt-4o-mini-tts, voice: coral)")])%list.
Proof.
  intros Hm Hv Hs Hk.
  assert (Hp : constructor env (getConfig ctx)
               = {| apiKey := apiKey (constructor env (getConfig ctx));
                    model := "gpt-4o-mini-tts"; defaultVoice := "coral";
                    speed := Number_of_Z 1;
                    instructions := cfg_instructions (getConfig ctx) |}).
  { unfold constructor at 1. rewrite Hm, Hv, Hs. reflexivity. }
  assert (Hok : validateConfig (constructor env (getConfig ctx)) = Normal tt).
  { apply validateConfig_Normal. rewrite truthy_string_nonempty. split; [exact Hk|].
    rewrite Hp. cbn [defaultVoice speed model]. repeat split; vm_compute; reflexivity. }
  rewrite (init_normal rev env ctx Hok). cbn [fst log registered logged registerTTSProvider].
  split; [rewrite <- Hp; reflexivity|].
  do 3 f_equal. destruct rev; cbn [registered_line].
  - rewrite Hm, Hv. reflexivity.
  - rewrite Hp. reflexivity.
Qed.

Lemma X15_defaults_register_witness :
  logged (fst (init (RT := Sample.runtime) index_ts None (host_of test_config)))
  = [(log_info, "OpenAI TTS provider registered (model: gpt-4o-mini-tts, voice: coral)")].
Proof.
  destruct (X15_defaults_register (RT := Sample.runtime) index_ts None (host_of test_config)
              eq_refl eq_refl eq_refl) as [_ H].
  - discriminate.
  - exact H.
Defined.

(** ** The configuration schema *)

(** X16. The select fields of the manifest's schema offer exactly the
    catalogue's voices and the supported models, and its defaults are those
    of [DEFAULT_CONFIG].  So a configuration assembled from a non-empty key,
    an offered model, an offered voice and the schema's default speed (or
    none) always passes validation. *)
Theorem X16_schema_choices_validate {RT : Runtime} (env : option string)
    (key m v : string) (instr : option string) :
  key <> "" -> In m (offered "model") -> In v (offered "voice") ->
  validateConfig (constructor env (form_config key m v None instr)) = Normal tt
  /\ validateConfig (constructor env (form_config key m v (Some (Number_of_Z 1)) instr))
     = Normal tt
  /\ offered "voice" = validVoices
  /\ offered "model" = validModels
  /\ schema_default "model" = Some (JString DEFAULT_model)
  /\ schema_default "voice" = Some (JString DEFAULT_voice)
  /\ schema_default "speed" = Some (JNumber DEFAULT_speed).
Proof.
  intros Hk Hm Hv.
  assert (Hkey : forall s, truthy_string
                   (apiKey (constructor env (form_config key m v s instr))) = true).
  { intros s. rewrite constructor_apiKey. cbn [form_config cfg_apiKey].
    apply truthy_string_nonempty in Hk. rewrite Hk. exact Hk. }
  split; [|split; [|repeat split]].
  - apply validateConfig_Normal. split; [apply Hkey|].
    cbn in Hm, Hv.
    repeat (destruct Hm as [<- | Hm]; [|]); try contradiction;
      repeat (destruct Hv as [<- | Hv]; [|]); try contradiction;
      repeat split; vm_compute; reflexivity.
  - apply validateConfig_Normal. split; [apply Hkey|].
    cbn in Hm, Hv.
    repeat (destruct Hm as [<- | Hm]; [|]); try contradiction;
      repeat (destruct Hv as [<- | Hv]; [|]); try contradiction;
      repeat split; vm_compute; reflexivity.
Qed.

Lemma X16_schema_choices_validate_witness :
  validateConfig (RT := Sample.runtime)
    (constructor None (form_config "sk-test-key" "tts-1-hd" "marin" None None))
  = Normal tt.
Proof.
  destruct (X16_schema_choices_validate (RT := Sample.runtime) None "sk-test-key"
              "tts-1-hd" "marin" None) as [H _].
  - discriminate.
  - vm_compute. tauto.
  - vm_compute. tauto.
  - exact H.
Defined.

(** ** Durations grow with the payload *)

Lemma duration_integer (n : N) :
  (n < 2 ^ 32)%N ->
  exists a : Z,
    duration_of_length (Number_of_N n) = Number_of_Z a
    /\ 0 <= a
    /\ 48 * a <= Z.of_N n + 24
    /\ Z.of_N n + 24 <= 48 * a + 48
    /\ (Z.of_N n + 24 = 48 * a + 48 -> (n mod 48 = 24)%N).
Proof.
  intros Hn. pose proof (exact_round_bounds n) as Hb.
  destruct (N.eq_dec (n mod 48) 24) as [Ht|Ht].
  - pose proof (proj1 (exact_round_tie n) Ht) as He.
    destruct (duration_at_tie n Hn Ht) as [H|H].
    + exists (exact_round_n_over_48 n). repeat split; try lia. exact H.
    + exists (exact_round_n_over_48 n - 1). repeat split; try lia. exact H.
  - exists (exact_round_n_over_48 n).
    split; [apply duration_closed_form; assumption|].
    repeat split; try lia.
Qed.

Lemma binary_round_aux_exact (s : bool) (m : positive) (e : Z) :
  Zdigits2 (Z.pos m) = 53 -> -1000 <= e <= 900 ->
  binary_round_aux prec emax s (Z.pos m) e loc_Exact = S754_finite s m e.
Proof.
  intros Hd He. unfold binary_round_aux, shr_fexp.
  rewrite Hd, fexp_normal by lia.
  replace (53 + e - 53 - e) with 0 by lia.
  cbn [shr shr_record_of_loc shr_m loc_of_shr_record round_nearest_even].
  rewrite Hd, fexp_normal by lia.
  replace (53 + e - 53 - e) with 0 by lia.
  cbn [shr shr_record_of_loc shr_m].
  replace (e <=? emax - prec) with true
    by (symmetry; apply Z.leb_le; unfold emax, prec; lia).
  reflexivity.
Qed.

(** Integers below 2^52 are doubles: their Number value is exact. *)
Lemma Qvalue_Number_of_Z (z : Z) :
  0 <= z < 2 ^ 52 -> (Qvalue (Number_of_Z z) == inject_Z z)%Q.
Proof.
  intros Hz. destruct z as [|p|p]; try lia; [reflexivity|].
  unfold Number_of_Z, binary_normalize, binary_round.
  pose proof (digits2_bounds p) as Hb.
  set (d := Z.pos (digits2_pos p)) in *.
  assert (Hd : 1 <= d <= 52).
  { split; [subst d; lia|].
    destruct (Z_le_gt_dec d 52); [assumption|].
    assert (2 ^ 52 <= 2 ^ (d - 1)) by (apply Z.pow_le_mono_r; lia). lia. }
  rewrite fexp_normal by lia. unfold shl_align.
  destruct (d + 0 - 53 - 0) as [|k|k] eqn:Hk; try lia.
  assert (Hk' : Z.pos k = 53 - d).
  { clearbody d. clear - Hk. pose proof (Pos2Z.opp_pos k). lia. }
  assert (Hmz : Z.pos (Pos.iter xO p k) = Z.pos p * 2 ^ (53 - d))
    by (rewrite Pos_iter_xO, Hk'; reflexivity).
  assert (Hmzb : 2 ^ 52 <= Z.pos (Pos.iter xO p k) < 2 ^ 53).
  { assert (E52 : 2 ^ 52 = 2 ^ (d - 1) * 2 ^ (53 - d))
      by (rewrite <- pow2_split by lia; f_equal; lia).
    assert (E53 : 2 ^ 53 = 2 ^ d * 2 ^ (53 - d))
      by (rewrite <- pow2_split by lia; f_equal; lia).
    assert (0 < 2 ^ (53 - d)) by (apply Z.pow_pos_nonneg; lia).
    rewrite Hmz, E52, E53.
    split; [apply Z.mul_le_mono_nonneg_r | apply Zmult_lt_compat_r]; lia. }
  rewrite binary_round_aux_exact
    by (try (apply Zdigits2_unique; [lia | exact Hmzb]); lia).
  cbn [Qvalue]. unfold Qval.
  rewrite Hmz, inject_Z_mult, <- (Qpow2_Z (53 - d)) by lia.
  rewrite <- Qmult_assoc, <- Qpow2_add.
  replace (53 - d + (d + 0 - 53)) with 0 by lia. cbn. ring.
Qed.



(** ** The shape of the request body *)

(** X18. The body always holds [model], [input], [voice],
    [response_format] and [speed] in this order, followed by [instructions]
    when they are sent, and nothing else.  [input] is the text exactly as
    given, an empty text included, and [model] is the stored model: no
    per-call option changes it. *)
Theorem X18_body_shape (this : OpenAITTSProvider) (txt : string)
    (options : option TTSOptions) :
  (map fst (synthesize_body this txt options)
   = ["model"; "input"; "voice"; "response_format"; "speed"]
   \/ map fst (synthesize_body this txt options)
      = ["model"; "input"; "voice"; "response_format"; "speed"; "instructions"])
  /\ (has_prop (synthesize_body this txt options) "instructions" = true
      <-> map fst (synthesize_body this txt options)
          = ["model"; "input"; "voice"; "response_format"; "speed"; "instructions"])
  /\ get_prop (synthesize_body this txt options) "input" = Some (JString txt)
  /\ get_prop (synthesize_body this txt options) "model" = Some (JString (model this))
  /\ get_prop (synthesize_body this txt options) "response_format" = Some (JString "pcm").
Proof.
  pose proof (synthesize_body_cases this txt options) as Hb. cbn zeta in Hb.
  destruct (effectiveInstructions this options) as [i|];
    [destruct (truthy_string i && (model this =? "gpt-4o-mini-tts")%string)|];
    rewrite Hb; cbn; repeat split; auto; discriminate.
Qed.

(** ** The outcomes of [synthesize] *)

Lemma run_reads_synthesize {RT : Runtime} (rev : revision) (this : OpenAITTSProvider)
    (txt : string) (options : option TTSOptions) (net : network) (faults : body_faults) :
  run_reads net faults (synthesize rev this txt options)
  = match net SPEECH_URL (synthesize_init rev this txt options) with
    | Rejected e => (Thrown e, [EvFetch SPEECH_URL (synthesize_init rev this txt options)])
    | Fulfilled r =>
        match ok r, faults r with
        | true, None =>
            (Normal {| audio := arrayBuffer r;
                       format := pcm_s16le;
                       sampleRate := sampleRate_const;
                       durationMs := duration_of_length (Buffer_length (arrayBuffer r)) |},
             [EvFetch SPEECH_URL (synthesize_init rev this txt options); EvArrayBuffer])
        | true, Some e =>
            (Thrown e,
             [EvFetch SPEECH_URL (synthesize_init rev this txt options); EvArrayBuffer])
        | false, None =>
            (Thrown (Error ("OpenAI TTS failed: " ++ N_toString (status r)
                            ++ " - " ++ text r)),
             [EvFetch SPEECH_URL (synthesize_init rev this txt options); EvText])
        | false, Some e =>
            (Thrown e, [EvFetch SPEECH_URL (synthesize_init rev this txt options); EvText])
        end
    end.
Proof.
  unfold synthesize, await_fetch. cbn [bind run_reads].
  destruct (net SPEECH_URL (synthesize_init rev this txt options)) as [r|e];
    [|reflexivity].
  cbn [bind]. destruct (ok r); cbn [negb bind await_text await_arrayBuffer run_reads];
    unfold read_body; destruct (faults r); reflexivity.
Qed.

(** X19. Let the reading of a response body fail or not.  [synthesize]
    returns a result exactly when the request is answered by a response that
    is [ok] and whose payload is delivered.  When it throws, the error is the
    rejection of the request, or the rejection of the body read, both
    unchanged, or the ["OpenAI TTS failed"] error built from a response that
    is not [ok] and whose text was delivered.  A run makes the request, then
    reads the response at most once: the text or the payload, never both. *)
Theorem X19_synthesize_outcomes {RT : Runtime} (rev : revision)
    (this : OpenAITTSProvider) (txt : string) (options : option TTSOptions)
    (net : network) (faults : body_faults) :
  ((exists res,
      fst (run_reads net faults (synthesize rev this txt options)) = Normal res)
   <-> exists r : Response,
         net SPEECH_URL (synthesize_init rev this txt options) = Fulfilled r
         /\ ok r = true /\ faults r = None)
  /\ (forall e : JsError,
        fst (run_reads net faults (synthesize rev this txt options)) = Thrown e ->
        net SPEECH_URL (synthesize_init rev this txt options) = Rejected e
        \/ (exists r : Response,
              net SPEECH_URL (synthesize_init rev this txt options) = Fulfilled r
              /\ faults r = Some e)
        \/ (exists r : Response,
              net SPEECH_URL (synthesize_init rev this txt options) = Fulfilled r
              /\ ok r = false /\ faults r = None
              /\ e = Error ("OpenAI TTS failed: " ++ N_toString (status r)
                            ++ " - " ++ text r)))
  /\ (forall (r : Response) (e : JsError),
        net SPEECH_URL (synthesize_init rev this txt options) = Fulfilled r ->
        faults r = Some e ->
        fst (run_reads net faults (synthesize rev this txt options)) = Thrown e)
  /\ (List.length (snd (run_reads net faults (synthesize rev this txt options))) <= 2)%nat
  /\ fetches (snd (run_reads net faults (synthesize rev this txt options)))
     = [EvFetch SPEECH_URL (synthesize_init rev this txt options)]
  /\ ~ (In EvText (snd (run_reads net faults (synthesize rev this txt options)))
        /\ In EvArrayBuffer (snd (run_reads net faults (synthesize rev this txt options)))).
Proof.
  rewrite run_reads_synthesize.
  destruct (net SPEECH_URL (synthesize_init rev this txt options)) as [r|e0] eqn:Hnet.
  - destruct (ok r) eqn:Hok, (faults r) as [e1|] eqn:Hf; cbn [fst snd];
      (split; [|split; [|split; [|split; [|split]]]]).
    all: try (cbn; lia).
    all: try reflexivity.
    all: try (cbn; intros [[H|[H|[]]] [H'|[H'|[]]]]; discriminate).
    + split; [intros [res [=]] | intros (r' & [= <-] & _ & H); congruence].
    + intros e [= <-]. right. left. exists r. auto.
    + intros r' e [= <-] H. congruence.
    + split; [intros _; exists r; auto | intros _; eexists; reflexivity].
    + intros e [=].
    + intros r' e [= <-] H. congruence.
    + split; [intros [res [=]] | intros (r' & [= <-] & H & _); congruence].
    + intros e [= <-]. right. left. exists r. auto.
    + intros r' e [= <-] H. congruence.
    + split; [intros [res [=]] | intros (r' & [= <-] & H & _); congruence].
    + intros e [= <-]. right. right. exists r. auto.
    + intros r' e [= <-] H. congruence.
  - cbn [fst snd]. split; [|split; [|split; [|split; [|split]]]].
    + split; [intros [res [=]] | intros (r' & [=] & _)].
    + intros e [= <-]. left. reflexivity.
    + intros r' e [=].
    + cbn. lia.
    + reflexivity.
    + cbn. intros [[H|[]] _]. discriminate.
Qed.

Lemma X19_synthesize_outcomes_witness :
  fst (run_reads (always (ok_response (zero_bytes 4)))
         (fun _ => Some timeout_error)
         (synthesize (RT := Sample.runtime) part_004 test_provider "Hello" no_options))
  = Thrown timeout_error.
Proof.
  destruct (X19_synthesize_outcomes (RT := Sample.runtime) part_004 test_provider "Hello"
              no_options (always (ok_response (zero_bytes 4)))
              (fun _ => Some timeout_error)) as (_ & _ & H & _).
  apply (H (ok_response (zero_bytes 4)) timeout_error); reflexivity.
Defined.
